(** * ai-chat-stack: the session synchronisation logic of the React client

    A shallow embedding of [src/App.tsx] (the ten [useState] cells, the
    [lastJsonMessage] effect, the command handlers and the reset callback)
    and of the repository form of [src/components/ConfigurationScreen.tsx]
    (both revisions found in the sources).

    React state is modelled by explicit state passing: every handler is a
    function [State -> State]; a [setX v] call replaces the cell [x] of the
    record and keeps the others.  [sendMessage (JSON.stringify m)] is
    modelled by appending the typed command [m] to the log [sent]; the JSON
    text itself is not modelled.  [Date.now ()] is an input of the handler
    that reads it.  The effect on [lastJsonMessage] is modelled per message
    it runs for: [onMessage m] is one run of its [switch]. *)

From stdpp Require Import base strings list pretty.

Local Open Scope string_scope.
Local Open Scope list_scope.

(** ** JavaScript truthiness of the values the code tests *)

Module JS.

(** [!!s] for a string: only the empty string is falsy. *)
Definition truthy (s : string) : bool :=
  match s with
  | EmptyString => false
  | String _ _ => true
  end.

(** [!!x] for [x : string | null]. *)
Definition truthy_opt (o : option string) : bool :=
  match o with
  | Some s => truthy s
  | None => false
  end.

(** [a || b] on strings. *)
Definition or_else (a b : string) : string :=
  if truthy a then a else b.

End JS.

(** ** The data of [types.ts], as the code builds and reads it *)

Inductive FileKind := file | directory.

(** Modelled from the spec: [types.ts] is not among the sources; a
    [FileNode] is the recursive {path, kind, children} of the data model.
    The code under study only stores and forwards such trees. *)
#[warnings="-register-all"]
Inductive FileNode :=
  mkFileNode (path : string) (kind : FileKind) (children : list FileNode).

Inductive Sender := user | agent.

Record ChatMessage := mkChatMessage {
  cm_id : string;
  cm_sender : Sender;
  cm_text : string;
  cm_timestamp : Z
}.

(** What the form sends: a repository with its token. *)
Record Repository := mkRepository {
  r_name : string;
  r_url : string;
  r_host : string;
  r_owner : string;
  r_repo : string;
  r_branch : string;
  r_token : string
}.

(** What the server lists: identity, no token. *)
Record RepositoryResponse := mkRepositoryResponse {
  rr_id : string;
  rr_name : string;
  rr_url : string;
  rr_host : string;
  rr_owner : string;
  rr_repo : string;
  rr_branch : string
}.

(** An entry of [ConfigData.repositories] as [handleConfigSubmit] builds it. *)
Record ConfigRepository := mkConfigRepository {
  cr_id : string;
  cr_repository : Repository
}.

Record ConfigData := mkConfigData {
  geminiToken : string;
  cd_repositories : list ConfigRepository
}.

(** Server to client.  [UNKNOWN] stands for every tag the [switch] sends
    to its [default] branch. *)
Inductive ServerToClientMessage :=
| CONFIG_SUCCESS
| CONFIG_ERROR (message : string)
| FILE_TREE_DATA (tree : list FileNode) (repository : option RepositoryResponse)
| FILE_TREE_ERROR (message : string)
| NEW_CHAT_MESSAGE (payload : ChatMessage)
| AGENT_TYPING (isTyping : bool)
| REPOSITORIES_LIST (repositories : list RepositoryResponse)
| REPOSITORY_ACTION_SUCCESS (action : string) (repository_id : option string)
                            (repository : option RepositoryResponse)
| REPOSITORY_ACTION_ERROR (message : string)
| UNKNOWN (type : string).

(** Client to server. *)
Inductive ClientToServerMessage :=
| SUBMIT_CONFIG (data : ConfigData)
| FETCH_FILES (repository_id : string)
| SEND_CHAT_MESSAGE (text : string)
| ADD_REPOSITORY (repository : Repository)
| UPDATE_REPOSITORY (repository_id : string) (repository : Repository)
| DELETE_REPOSITORY (repository_id : string)
| SELECT_REPOSITORY (repository_id : string).

(** ** [App.tsx] *)

Module App.

(** The [useState] cells of [App], and the log of [sendMessage] calls. *)
Record State := mkState {
  isConfigured : bool;
  configData : option ConfigData;
  chatMessages : list ChatMessage;
  fileTree : option (list FileNode);
  isFileTreeLoading : bool;
  fileTreeError : option string;
  systemMessage : option string;
  repositories : list RepositoryResponse;
  selectedRepositoryId : option string;
  selectedRepository : option RepositoryResponse;
  sent : list ClientToServerMessage
}.

(** The initial values given to [useState]. *)
Definition initialState : State :=
  {| isConfigured := false; configData := None; chatMessages := [];
     fileTree := None; isFileTreeLoading := false; fileTreeError := None;
     systemMessage := None; repositories := []; selectedRepositoryId := None;
     selectedRepository := None; sent := [] |}.

(** *** State setters *)

Definition setIsConfigured (v : bool) (s : State) : State :=
  mkState v (configData s) (chatMessages s) (fileTree s)
    (isFileTreeLoading s) (fileTreeError s) (systemMessage s)
    (repositories s) (selectedRepositoryId s) (selectedRepository s) (sent s).

Definition setConfigData (v : option ConfigData) (s : State) : State :=
  mkState (isConfigured s) v (chatMessages s) (fileTree s)
    (isFileTreeLoading s) (fileTreeError s) (systemMessage s)
    (repositories s) (selectedRepositoryId s) (selectedRepository s) (sent s).

(** [setChatMessages] is always called with an updater function. *)
Definition setChatMessages (f : list ChatMessage -> list ChatMessage)
    (s : State) : State :=
  mkState (isConfigured s) (configData s) (f (chatMessages s)) (fileTree s)
    (isFileTreeLoading s) (fileTreeError s) (systemMessage s)
    (repositories s) (selectedRepositoryId s) (selectedRepository s) (sent s).

Definition setFileTree (v : option (list FileNode)) (s : State) : State :=
  mkState (isConfigured s) (configData s) (chatMessages s) v
    (isFileTreeLoading s) (fileTreeError s) (systemMessage s)
    (repositories s) (selectedRepositoryId s) (selectedRepository s) (sent s).

Definition setIsFileTreeLoading (v : bool) (s : State) : State :=
  mkState (isConfigured s) (configData s) (chatMessages s) (fileTree s)
    v (fileTreeError s) (systemMessage s)
    (repositories s) (selectedRepositoryId s) (selectedRepository s) (sent s).

Definition setFileTreeError (v : option string) (s : State) : State :=
  mkState (isConfigured s) (configData s) (chatMessages s) (fileTree s)
    (isFileTreeLoading s) v (systemMessage s)
    (repositories s) (selectedRepositoryId s) (selectedRepository s) (sent s).

Definition setSystemMessage (v : option string) (s : State) : State :=
  mkState (isConfigured s) (configData s) (chatMessages s) (fileTree s)
    (isFileTreeLoading s) (fileTreeError s) v
    (repositories s) (selectedRepositoryId s) (selectedRepository s) (sent s).

Definition setRepositories (v : list RepositoryResponse) (s : State) : State :=
  mkState (isConfigured s) (configData s) (chatMessages s) (fileTree s)
    (isFileTreeLoading s) (fileTreeError s) (systemMessage s)
    v (selectedRepositoryId s) (selectedRepository s) (sent s).

Definition setSelectedRepositoryId (v : option string) (s : State) : State :=
  mkState (isConfigured s) (configData s) (chatMessages s) (fileTree s)
    (isFileTreeLoading s) (fileTreeError s) (systemMessage s)
    (repositories s) v (selectedRepository s) (sent s).

Definition setSelectedRepository (v : option RepositoryResponse)
    (s : State) : State :=
  mkState (isConfigured s) (configData s) (chatMessages s) (fileTree s)
    (isFileTreeLoading s) (fileTreeError s) (systemMessage s)
    (repositories s) (selectedRepositoryId s) v (sent s).

(** [sendMessage (JSON.stringify wsMessage)]. *)
Definition sendMessage (m : ClientToServerMessage) (s : State) : State :=
  mkState (isConfigured s) (configData s) (chatMessages s) (fileTree s)
    (isFileTreeLoading s) (fileTreeError s) (systemMessage s)
    (repositories s) (selectedRepositoryId s) (selectedRepository s)
    (sent s ++ [m]).

(** Statements of a handler body run top to bottom: [s |> f |> g]. *)
Notation "s |> f" := (f s) (at level 45, left associativity, only parsing).

(** *** The [lastJsonMessage] effect: the [switch] on [message.type] *)

Definition onMessage (message : ServerToClientMessage) (s : State) : State :=
  match message with
  | CONFIG_SUCCESS =>
      s |> setIsConfigured true
        |> setSystemMessage
             (Some "Configuration successful. You can now chat with the agent.")
  | CONFIG_ERROR m =>
      s |> setSystemMessage (Some ("Configuration Error: " +:+ m))
        |> setIsConfigured false
  | FILE_TREE_DATA tree repository =>
      let s1 := s |> setFileTree (Some tree)
                  |> setIsFileTreeLoading false
                  |> setFileTreeError None in
      match repository with
      | Some r => s1 |> setSelectedRepository (Some r)
      | None => s1
      end
  | FILE_TREE_ERROR m =>
      s |> setFileTreeError (Some m)
        |> setIsFileTreeLoading false
        |> setFileTree None
  | NEW_CHAT_MESSAGE payload =>
      s |> setChatMessages (fun prevMessages => prevMessages ++ [payload])
  | AGENT_TYPING _ => s
  | REPOSITORIES_LIST l =>
      let s1 := s |> setRepositories l in
      match l with
      | first :: _ =>
          if negb (JS.truthy_opt (selectedRepositoryId s))
          then s1 |> setSelectedRepositoryId (Some (rr_id first))
          else s1
      | [] => s1
      end
  | REPOSITORY_ACTION_SUCCESS action repository_id repository =>
      if String.eqb action "select" && JS.truthy_opt repository_id
      then s |> setSelectedRepositoryId repository_id
      else if bool_decide (is_Some repository)
      then s |> setSystemMessage
                  (Some ("Repository "
                         +:+ (if String.eqb action "add" then "added" else "updated")
                         +:+ " successfully"))
      else if String.eqb action "delete"
      then s |> setSystemMessage (Some "Repository deleted successfully")
      else s
  | REPOSITORY_ACTION_ERROR m =>
      s |> setSystemMessage (Some ("Repository action error: " +:+ m))
  | UNKNOWN _ => s
  end.

(** *** Command handlers *)

(** [now_id] and [now_ts] are the two readings of [Date.now ()];
    [toString] of an integer is its decimal rendering. *)
Definition userMessage (text : string) (now_id now_ts : Z) : ChatMessage :=
  {| cm_id := pretty now_id; cm_sender := user; cm_text := text;
     cm_timestamp := now_ts |}.

Definition handleSendChatMessage (text : string) (now_id now_ts : Z)
    (s : State) : State :=
  (if JS.truthy_opt (systemMessage s) then s |> setSystemMessage None else s)
    |> setChatMessages
         (fun prevMessages => prevMessages ++ [userMessage text now_id now_ts])
    |> sendMessage (SEND_CHAT_MESSAGE text).

Definition handleConfigure (data : ConfigData) (s : State) : State :=
  s |> setConfigData (Some data)
    |> sendMessage (SUBMIT_CONFIG data)
    |> setSystemMessage (Some "Submitting configuration...").

Definition handleFetchFileTree (repository_id : string) (s : State) : State :=
  s |> setIsFileTreeLoading true
    |> setFileTreeError None
    |> setFileTree None
    |> sendMessage (FETCH_FILES repository_id)
    |> setSystemMessage (Some "Fetching file tree...").

Definition handleAddRepository (repo : Repository) (s : State) : State :=
  s |> sendMessage (ADD_REPOSITORY repo)
    |> setSystemMessage (Some "Adding repository...").

Definition handleUpdateRepository (id : string) (repo : Repository)
    (s : State) : State :=
  s |> sendMessage (UPDATE_REPOSITORY id repo)
    |> setSystemMessage (Some "Updating repository...").

Definition handleDeleteRepository (id : string) (s : State) : State :=
  s |> sendMessage (DELETE_REPOSITORY id)
    |> setSystemMessage (Some "Deleting repository...").

Definition handleSelectRepository (id : string) (s : State) : State :=
  s |> sendMessage (SELECT_REPOSITORY id)
    |> setSystemMessage (Some "Selecting repository...")
    |> setSelectedRepositoryId (Some id).

(** The [onResetConfiguration] callback handed to [ChatInterface]. *)
Definition onResetConfiguration (s : State) : State :=
  s |> setIsConfigured false
    |> setConfigData None
    |> setChatMessages (fun _ => [])
    |> setFileTree None
    |> setSelectedRepository None
    |> setSelectedRepositoryId None
    |> setSystemMessage (Some "Configuration reset. Please re-configure.").

(** *** Sessions: what can happen to the state, one event at a time *)

Inductive Action :=
| Receive (message : ServerToClientMessage)
| SendChatMessage (text : string) (now_id now_ts : Z)
| Configure (data : ConfigData)
| FetchFileTree (repository_id : string)
| AddRepository (repo : Repository)
| UpdateRepository (id : string) (repo : Repository)
| DeleteRepository (id : string)
| SelectRepository (id : string)
| ResetConfiguration.

Definition step (s : State) (a : Action) : State :=
  match a with
  | Receive m => onMessage m s
  | SendChatMessage text now_id now_ts => handleSendChatMessage text now_id now_ts s
  | Configure data => handleConfigure data s
  | FetchFileTree rid => handleFetchFileTree rid s
  | AddRepository repo => handleAddRepository repo s
  | UpdateRepository id repo => handleUpdateRepository id repo s
  | DeleteRepository id => handleDeleteRepository id s
  | SelectRepository id => handleSelectRepository id s
  | ResetConfiguration => onResetConfiguration s
  end.

Definition run (s : State) (trace : list Action) : State :=
  fold_left step trace s.

End App.

(** ** The repository form of [ConfigurationScreen.tsx] *)

Module ConfigurationScreen.

(** The [useState] cells the repository form reads and writes. *)
Record Form := mkForm {
  formError : option string;
  isAddingRepo : bool;
  editingRepoId : option string;
  repoName : string;
  repoUrl : string;
  repoHost : string;
  repoOwner : string;
  repoName2 : string;
  repoBranch : string;
  repoToken : string
}.

Definition setFormError (v : option string) (f : Form) : Form :=
  mkForm v (isAddingRepo f) (editingRepoId f) (repoName f) (repoUrl f)
    (repoHost f) (repoOwner f) (repoName2 f) (repoBranch f) (repoToken f).

(** First revision: [formError] is not among the cells that are reset. *)
Definition resetRepoForm (f : Form) : Form :=
  mkForm (formError f) false None "" "" "github.com" "" "" "main" "".

Definition loadRepositoryForEdit (repo : RepositoryResponse) (f : Form) : Form :=
  mkForm (formError f) true (Some (rr_id repo)) (rr_name repo) (rr_url repo)
    (rr_host repo) (rr_owner repo) (rr_repo repo) (rr_branch repo) "".

(** The prop the submit handler ends up calling, if any. *)
Inductive RepoCall :=
| addRepository (repo : Repository)
| updateRepository (id : string) (repo : Repository).

(** The [Repository] object literal built from the form cells. *)
Definition repositoryOfForm (f : Form) : Repository :=
  {| r_name := repoName f;
     r_url := JS.or_else (repoUrl f)
                ("https://" +:+ repoHost f +:+ "/" +:+ repoOwner f
                 +:+ "/" +:+ repoName2 f);
     r_host := repoHost f;
     r_owner := repoOwner f;
     r_repo := repoName2 f;
     r_branch := JS.or_else (repoBranch f) "main";
     r_token := repoToken f |}.

(** [if (!repoName || !repoToken || !repoOwner || !repoName2)]. *)
Definition missingRequired (f : Form) : bool :=
  negb (JS.truthy (repoName f)) || negb (JS.truthy (repoToken f))
  || negb (JS.truthy (repoOwner f)) || negb (JS.truthy (repoName2 f)).

(** [if (editingRepoId) updateRepository (...) else addRepository (...)]. *)
Definition callFor (f : Form) (repo : Repository) : RepoCall :=
  match editingRepoId f with
  | Some id => if JS.truthy id then updateRepository id repo
               else addRepository repo
  | None => addRepository repo
  end.

Definition handleRepoSubmit (f : Form) : Form * option RepoCall :=
  if missingRequired f
  then (setFormError
          (Some "Repository name, token, owner, and name are required.") f,
        None)
  else (resetRepoForm f, Some (callFor f (repositoryOfForm f))).

(** Second revision of the component (collapsible sections): the same
    cells, [repoName2] is called [repoRepo] there; the reset also clears
    [formError], and the message names the field [repo]. *)
Module Rev2.

Definition resetRepoForm (f : Form) : Form :=
  mkForm None false None "" "" "github.com" "" "" "main" "".

Definition handleRepoSubmit (f : Form) : Form * option RepoCall :=
  if missingRequired f
  then (setFormError
          (Some "Repository name, token, owner, and repo are required.") f,
        None)
  else (resetRepoForm f, Some (callFor f (repositoryOfForm f))).

End Rev2.

(** [App] passes [handleAddRepository] and [handleUpdateRepository] as the
    two props. *)
Definition dispatch (c : option RepoCall) (s : App.State) : App.State :=
  match c with
  | Some (addRepository repo) => App.handleAddRepository repo s
  | Some (updateRepository id repo) => App.handleUpdateRepository id repo s
  | None => s
  end.

(** One run of the submit handler seen from the whole client: the form
    cells after it, and the session after the prop it called. *)
Definition submitRepoForm
    (submit : Form -> Form * option RepoCall)
    (fs : Form * App.State) : Form * App.State :=
  let '(f', c) := submit (fst fs) in (f', dispatch c (snd fs)).

End ConfigurationScreen.

(** ** The connection options [App] hands to [useWebSocket] *)

Module WebSocketOptions.

(** The fields of a DOM [CloseEvent]. *)
Record CloseEvent := mkCloseEvent {
  code : Z;
  reason : string;
  wasClean : bool
}.

Record Options := mkOptions {
  shouldReconnect : CloseEvent -> bool;
  reconnectAttempts : nat;
  reconnectInterval : nat
}.

(** The object literal of [App.tsx]; the interval is in milliseconds. *)
Definition options : Options :=
  {| shouldReconnect := fun _closeEvent => true;
     reconnectAttempts := 10;
     reconnectInterval := 3000 |}.

(** What [ws.close ()] called by the client itself produces: a clean
    close with the normal-closure code. *)
Definition manualClose : CloseEvent :=
  {| code := 1000; reason := ""; wasClean := true |}.

End WebSocketOptions.

(** ** The reconnection loop of the channel provider *)

Module Reconnection.
Import WebSocketOptions.

(** What the provider does once the channel has closed. *)
Inductive Outcome :=
| Retry (delay : nat)
| StayClosed.

(** Modelled from the spec: the retry loop is in the WebSocket hook
    (react-use-websocket), which is not among the sources.  It follows the
    reconnection policy of the design: a close that the [shouldReconnect]
    predicate of the options accepts is retried after the inter-attempt
    delay of the options, and counted, as long as fewer retries than the
    ceiling of the options have been made; otherwise the connection stays
    CLOSED and nothing is scheduled.  [attempts] is the number of retries
    made so far. *)
Definition onClose (o : Options) (e : CloseEvent) (attempts : nat)
    : nat * Outcome :=
  if shouldReconnect o e && (attempts <? reconnectAttempts o)%nat
  then (S attempts, Retry (reconnectInterval o))
  else (attempts, StayClosed).

(** Modelled from the spec: a run of closes with no successful connection
    in between, each handled by [onClose]. *)
Fixpoint onCloses (o : Options) (es : list CloseEvent) (attempts : nat)
    : nat * list Outcome :=
  match es with
  | [] => (attempts, [])
  | e :: es' =>
      let '(n1, out) := onClose o e attempts in
      let '(n2, outs) := onCloses o es' n1 in
      (n2, out :: outs)
  end.

End Reconnection.

(** ** The file-tree slice seen as the four states of the design *)

Module FileTreeView.
Import App.

Inductive FileTreeState :=
| IDLE
| LOADING
| LOADED (tree : list FileNode)
| ERROR (message : string).

Definition treeState (s : State) : FileTreeState :=
  match fileTree s with
  | Some tree => LOADED tree
  | None => IDLE
  end.

(** Read off the three cells the way [ConfigurationScreen] renders them:
    the spinner while [isFileTreeLoading], the error box for a truthy
    [fileTreeError], the tree otherwise. *)
Definition fileTreeState (s : State) : FileTreeState :=
  if isFileTreeLoading s then LOADING
  else match fileTreeError s with
       | Some m => if JS.truthy m then ERROR m else treeState s
       | None => treeState s
       end.

End FileTreeView.

(** ** Sessions, observations and sample data used in the statements *)

Import App FileTreeView ConfigurationScreen WebSocketOptions.

(** A REPOSITORIES_LIST event as an action of a session. *)
Definition listEvent (l : list RepositoryResponse) : Action :=
  Receive (REPOSITORIES_LIST l).

(** Two listed repositories. *)
Definition repoR1 : RepositoryResponse :=
  mkRepositoryResponse "r1" "one" "https://github.com/o/one" "github.com"
    "o" "one" "main".

Definition repoR2 : RepositoryResponse :=
  mkRepositoryResponse "r2" "two" "https://github.com/o/two" "github.com"
    "o" "two" "main".

(** The two server replies to a FETCH_FILES command. *)
Definition isTreeResponse (a : Action) : bool :=
  match a with
  | Receive (FILE_TREE_DATA _ _) | Receive (FILE_TREE_ERROR _) => true
  | _ => false
  end.

(** A fetch is in flight: no tree is held and the loading flag is up. *)
Definition inFlight (s : State) : Prop :=
  fileTree s = None /\ isFileTreeLoading s = true.

(** A two-node tree: a directory with one file, and a file. *)
Definition twoNodes : list FileNode :=
  [mkFileNode "src" directory [mkFileNode "src/App.tsx" file []];
   mkFileNode "README.md" file []].

(** The AGENT_TYPING events. *)
Definition isTyping (a : Action) : bool :=
  match a with
  | Receive (AGENT_TYPING _) => true
  | _ => false
  end.

(** A message pushed by the server. *)
Definition agentReply : ChatMessage :=
  mkChatMessage "srv-1" agent "hello" 1700000000500.

(** The clock reading a send turns into an id. *)
Definition sendReading (a : Action) : option Z :=
  match a with
  | SendChatMessage _ now_id _ => Some now_id
  | _ => None
  end.

(** The id the server gave to a message it pushes. *)
Definition serverId (a : Action) : option string :=
  match a with
  | Receive (NEW_CHAT_MESSAGE m) => Some (cm_id m)
  | _ => None
  end.

(** The id an action adds to the transcript, if it adds a message. *)
Definition incomingId (a : Action) : option string :=
  match a with
  | SendChatMessage _ now_id _ => Some (pretty now_id)
  | Receive (NEW_CHAT_MESSAGE m) => Some (cm_id m)
  | _ => None
  end.

(** The initial values given to [useState] in the component. *)
Definition initialForm : Form :=
  mkForm None false None "" "" "github.com" "" "" "main" "".

(** ** What each session action transmits *)

(** The command a handler passes to [sendMessage]; the message effect and
    the reset callback do not call it. *)
Definition commandOf (a : Action) : option ClientToServerMessage :=
  match a with
  | Receive _ => None
  | SendChatMessage text _ _ => Some (SEND_CHAT_MESSAGE text)
  | Configure data => Some (SUBMIT_CONFIG data)
  | FetchFileTree repository_id => Some (FETCH_FILES repository_id)
  | AddRepository repo => Some (ADD_REPOSITORY repo)
  | UpdateRepository id repo => Some (UPDATE_REPOSITORY id repo)
  | DeleteRepository id => Some (DELETE_REPOSITORY id)
  | SelectRepository id => Some (SELECT_REPOSITORY id)
  | ResetConfiguration => None
  end.

(** ** Classes of actions used to delimit runs *)

Definition isConfigSuccess (a : Action) : bool :=
  match a with
  | Receive CONFIG_SUCCESS => true
  | _ => false
  end.

Definition isListEvent (a : Action) : bool :=
  match a with
  | Receive (REPOSITORIES_LIST _) => true
  | _ => false
  end.

Definition isReset (a : Action) : bool :=
  match a with
  | ResetConfiguration => true
  | _ => false
  end.

(** The actions whose code calls [setSelectedRepositoryId]; for a
    REPOSITORY_ACTION_SUCCESS event that is the branch taken for the
    action "select" with a truthy [repository_id]. *)
Definition writesSelection (a : Action) : bool :=
  match a with
  | SelectRepository _ | ResetConfiguration => true
  | Receive (REPOSITORIES_LIST _) => true
  | Receive (REPOSITORY_ACTION_SUCCESS action repository_id _) =>
      String.eqb action "select" && JS.truthy_opt repository_id
  | _ => false
  end.

(** The actions whose code calls [setConfigData]. *)
Definition writesConfigData (a : Action) : bool :=
  match a with
  | Configure _ | ResetConfiguration => true
  | _ => false
  end.

(** The message an action appends to the transcript, if any. *)
Definition incomingMessage (a : Action) : option ChatMessage :=
  match a with
  | SendChatMessage text now_id now_ts =>
      Some (mkChatMessage (pretty now_id) user text now_ts)
  | Receive (NEW_CHAT_MESSAGE m) => Some m
  | _ => None
  end.

(** The actions whose code does not call [setSystemMessage]: among the
    message cases FILE_TREE_DATA, FILE_TREE_ERROR, NEW_CHAT_MESSAGE,
    AGENT_TYPING, REPOSITORIES_LIST, the default case, and those
    REPOSITORY_ACTION_SUCCESS events that take the select branch or no
    branch at all. *)
Definition keepsStatus (a : Action) : bool :=
  match a with
  | Receive (FILE_TREE_DATA _ _) | Receive (FILE_TREE_ERROR _)
  | Receive (NEW_CHAT_MESSAGE _) | Receive (AGENT_TYPING _)
  | Receive (REPOSITORIES_LIST _) | Receive (UNKNOWN _) => true
  | Receive (REPOSITORY_ACTION_SUCCESS action repository_id repository) =>
      (String.eqb action "select" && JS.truthy_opt repository_id)
      || (negb (bool_decide (is_Some repository))
          && negb (String.eqb action "delete"))
  | _ => false
  end.

(** The three file-tree cells never contradict each other: while loading
    there is neither tree nor error, and a held tree excludes an error. *)
Definition fileTreeCoherent (s : State) : Prop :=
  (isFileTreeLoading s = true -> fileTree s = None /\ fileTreeError s = None)
  /\ (is_Some (fileTree s) -> fileTreeError s = None).

(** ** What [App] renders from its cells and the connection state *)

Module AppView.

(** [ReadyState] of the WebSocket hook. *)
Inductive ReadyState := UNINSTANTIATED | CONNECTING | OPEN | CLOSING | CLOSED.

Definition connectionStatusMessage (readyState : ReadyState) : option string :=
  match readyState with
  | CONNECTING => Some "Connecting to agent..."
  | OPEN => None
  | CLOSING => Some "Disconnecting..."
  | CLOSED => Some "Disconnected from agent. Attempting to reconnect..."
  | UNINSTANTIATED => Some "WebSocket not ready."
  end.

Definition isOPEN (readyState : ReadyState) : bool :=
  match readyState with OPEN => true | _ => false end.

Definition isCONNECTING (readyState : ReadyState) : bool :=
  match readyState with CONNECTING => true | _ => false end.

Definition isCLOSED (readyState : ReadyState) : bool :=
  match readyState with CLOSED => true | _ => false end.

(** [readyState === ReadyState.CONNECTING && !isConfigured]: the full-screen
    spinner returned before anything else. *)
Definition spinnerScreen (readyState : ReadyState) (s : State) : bool :=
  isCONNECTING readyState && negb (isConfigured s).

(** [systemMessage || (connectionStatusMessage && readyState !== OPEN)]:
    the condition on the status banner in the main [return]. *)
Definition bannerCondition (readyState : ReadyState) (s : State) : bool :=
  JS.truthy_opt (systemMessage s)
  || (JS.truthy_opt (connectionStatusMessage readyState)
      && negb (isOPEN readyState)).

(** Whether the status banner is rendered: the early [return] of the
    spinner screen has not been taken, and the condition holds. *)
Definition bannerVisible (readyState : ReadyState) (s : State) : bool :=
  negb (spinnerScreen readyState s) && bannerCondition readyState s.

(** [systemMessage || connectionStatusMessage]: the text in the banner. *)
Definition bannerText (readyState : ReadyState) (s : State) : option string :=
  if JS.truthy_opt (systemMessage s) then systemMessage s
  else connectionStatusMessage readyState.

(** [fileTreeError || readyState === CLOSED]: the red banner, else blue. *)
Definition bannerRed (readyState : ReadyState) (s : State) : bool :=
  JS.truthy_opt (fileTreeError s) || isCLOSED readyState.

(** The [isConnecting] prop of [ConfigurationScreen]. *)
Definition isConnecting (readyState : ReadyState) : bool :=
  isCONNECTING readyState || isCLOSED readyState.

(** The [isSendingMessage] prop of [ChatInterface], first revision. *)
Definition isSendingMessage (readyState : ReadyState) : bool :=
  negb (isOPEN readyState).

(** Second revision of [App] (unnamed/part_000). *)
Module Rev2.

(** [!!configData?.geminiToken]. *)
Definition canChat (s : State) : bool :=
  match configData s with
  | Some data => JS.truthy (geminiToken data)
  | None => false
  end.

Definition isSendingMessage (readyState : ReadyState) (s : State) : bool :=
  negb (isOPEN readyState) || negb (canChat s).

End Rev2.

End AppView.

(** ** The file-tree panel of [ConfigurationScreen.tsx] (first revision) *)

Module FileTreePanel.

(** [selectedRepositoryId && (...)]: the panel itself. *)
Definition panelShown (s : State) : bool :=
  JS.truthy_opt (selectedRepositoryId s).

(** The [disabled] attribute of the Refresh Files button. *)
Definition refreshDisabled (isConnecting : bool) (s : State) : bool :=
  isFileTreeLoading s || negb (JS.truthy_opt (selectedRepositoryId s))
  || isConnecting.

(** The [onClick] of the Refresh Files button. *)
Definition onRefreshClick (s : State) : State :=
  match selectedRepositoryId s with
  | Some id => if JS.truthy id then handleFetchFileTree id s else s
  | None => s
  end.

(** [fileTreeError && (...)]. *)
Definition errorBoxShown (s : State) : bool :=
  JS.truthy_opt (fileTreeError s).

(** [fileTreeData && !isFileTreeLoading && !fileTreeError]; an array is
    truthy also when empty. *)
Definition treeBoxShown (s : State) : bool :=
  bool_decide (is_Some (fileTree s)) && negb (isFileTreeLoading s)
  && negb (JS.truthy_opt (fileTreeError s)).

(** [isFileTreeLoading && (...)]. *)
Definition loadingBoxShown (s : State) : bool :=
  isFileTreeLoading s.

(** [ConfigurationScreen] is rendered: the early [return] of the spinner
    screen has not been taken and [!isConfigured] holds. *)
Definition screenShown (readyState : AppView.ReadyState) (s : State) : bool :=
  negb (AppView.spinnerScreen readyState s) && negb (isConfigured s).

(** The box holding the tree is rendered: the screen, the panel in it and
    the box in the panel. *)
Definition treeBoxRendered (readyState : AppView.ReadyState) (s : State)
    : bool :=
  screenShown readyState s && panelShown s && treeBoxShown s.

(** The same for the error box. *)
Definition errorBoxRendered (readyState : AppView.ReadyState) (s : State)
    : bool :=
  screenShown readyState s && panelShown s && errorBoxShown s.

End FileTreePanel.

(** ** The rest of the cells and handlers of [ConfigurationScreen.tsx] *)

Module ConfigForm.

(** The cells beside the repository form.  [formError] is one cell shared
    by both forms; it stays where it is, in [repoForm]. *)
Record Cells := mkCells {
  repoForm : Form;
  geminiToken : string;
  isConfigured : bool
}.

Definition initialCells : Cells := mkCells initialForm "" false.

Definition withForm (g : Form -> Form) (c : Cells) : Cells :=
  mkCells (g (repoForm c)) (geminiToken c) (isConfigured c).

Definition setGeminiToken (v : string) (c : Cells) : Cells :=
  mkCells (repoForm c) v (isConfigured c).

Definition setIsConfigured (v : bool) (c : Cells) : Cells :=
  mkCells (repoForm c) (geminiToken c) v.

(** One element of [repositories.map (repo => ({..., token: ''}))]. *)
Definition toConfigRepository (repo : RepositoryResponse) : ConfigRepository :=
  mkConfigRepository (rr_id repo)
    (mkRepository (rr_name repo) (rr_url repo) (rr_host repo) (rr_owner repo)
       (rr_repo repo) (rr_branch repo) "").

Definition configOf (c : Cells) (repositories : list RepositoryResponse)
    : ConfigData :=
  mkConfigData (geminiToken c) (map toConfigRepository repositories).

(** [handleConfigSubmit], first revision; [repositories] is the prop. *)
Definition handleConfigSubmit (repositories : list RepositoryResponse)
    (c : Cells) : Cells * option ConfigData :=
  if negb (JS.truthy (geminiToken c))
  then (withForm (setFormError (Some "Gemini API Token is required.")) c, None)
  else if Nat.eqb (length repositories) 0
  then (withForm (setFormError (Some "Please add at least one repository.")) c,
        None)
  else (setIsConfigured true (withForm (setFormError None) c),
        Some (configOf c repositories)).

(** The [disabled] attribute of the Apply Configuration button. *)
Definition submitDisabled (repositories : list RepositoryResponse)
    (isConnecting : bool) (c : Cells) : bool :=
  negb (JS.truthy (geminiToken c)) || Nat.eqb (length repositories) 0
  || isConnecting || isConfigured c.

(** The [onChange] handlers of the repository inputs. *)
Definition setRepoName (v : string) (f : Form) : Form :=
  mkForm (formError f) (isAddingRepo f) (editingRepoId f) v (repoUrl f)
    (repoHost f) (repoOwner f) (repoName2 f) (repoBranch f) (repoToken f).

Definition setRepoUrl (v : string) (f : Form) : Form :=
  mkForm (formError f) (isAddingRepo f) (editingRepoId f) (repoName f) v
    (repoHost f) (repoOwner f) (repoName2 f) (repoBranch f) (repoToken f).

Definition setRepoHost (v : string) (f : Form) : Form :=
  mkForm (formError f) (isAddingRepo f) (editingRepoId f) (repoName f)
    (repoUrl f) v (repoOwner f) (repoName2 f) (repoBranch f) (repoToken f).

Definition setRepoOwner (v : string) (f : Form) : Form :=
  mkForm (formError f) (isAddingRepo f) (editingRepoId f) (repoName f)
    (repoUrl f) (repoHost f) v (repoName2 f) (repoBranch f) (repoToken f).

Definition setRepoName2 (v : string) (f : Form) : Form :=
  mkForm (formError f) (isAddingRepo f) (editingRepoId f) (repoName f)
    (repoUrl f) (repoHost f) (repoOwner f) v (repoBranch f) (repoToken f).

Definition setRepoBranch (v : string) (f : Form) : Form :=
  mkForm (formError f) (isAddingRepo f) (editingRepoId f) (repoName f)
    (repoUrl f) (repoHost f) (repoOwner f) (repoName2 f) v (repoToken f).

Definition setRepoToken (v : string) (f : Form) : Form :=
  mkForm (formError f) (isAddingRepo f) (editingRepoId f) (repoName f)
    (repoUrl f) (repoHost f) (repoOwner f) (repoName2 f) (repoBranch f) v.

Definition setIsAddingRepo (v : bool) (f : Form) : Form :=
  mkForm (formError f) v (editingRepoId f) (repoName f)
    (repoUrl f) (repoHost f) (repoOwner f) (repoName2 f) (repoBranch f)
    (repoToken f).

(** The handlers the first revision attaches to its inputs, buttons and
    forms, as far as they write the cells above.  (The first revision has
    no input for [repoUrl].) *)
Inductive Event :=
| ChangeGeminiToken (v : string)
| ChangeRepoName (v : string)
| ChangeRepoToken (v : string)
| ChangeRepoHost (v : string)
| ChangeRepoOwner (v : string)
| ChangeRepoName2 (v : string)
| ChangeRepoBranch (v : string)
| ClickAddRepository
| ClickCancel
| ClickEdit (repo : RepositoryResponse)
| SubmitRepo
| SubmitConfig (repositories : list RepositoryResponse).

(** The prop a handler calls. *)
Inductive PropCall :=
| callRepository (call : RepoCall)
| onConfigure (config : ConfigData).

Definition handle (c : Cells) (e : Event) : Cells * option PropCall :=
  match e with
  | ChangeGeminiToken v => (setGeminiToken v c, None)
  | ChangeRepoName v => (withForm (setRepoName v) c, None)
  | ChangeRepoToken v => (withForm (setRepoToken v) c, None)
  | ChangeRepoHost v => (withForm (setRepoHost v) c, None)
  | ChangeRepoOwner v => (withForm (setRepoOwner v) c, None)
  | ChangeRepoName2 v => (withForm (setRepoName2 v) c, None)
  | ChangeRepoBranch v => (withForm (setRepoBranch v) c, None)
  | ClickAddRepository => (withForm (setIsAddingRepo true) c, None)
  | ClickCancel => (withForm resetRepoForm c, None)
  | ClickEdit repo => (withForm (loadRepositoryForEdit repo) c, None)
  | SubmitRepo =>
      let '(f', call) := handleRepoSubmit (repoForm c) in
      (withForm (fun _ => f') c, callRepository <$> call)
  | SubmitConfig repositories =>
      let '(c', config) := handleConfigSubmit repositories c in
      (c', onConfigure <$> config)
  end.

(** The cells after a sequence of handler runs, and the props called. *)
Fixpoint handleAll (c : Cells) (es : list Event) : Cells * list PropCall :=
  match es with
  | [] => (c, [])
  | e :: es' =>
      let '(c1, call) := handle c e in
      let '(c2, calls) := handleAll c1 es' in
      (c2, option_list call ++ calls)
  end.

Definition editsNamedRepository (e : Event) : bool :=
  match e with
  | ClickEdit repo => JS.truthy (rr_id repo)
  | _ => true
  end.

(** Second revision (unnamed/part_001). *)
Module Rev2.

(** No check on the repository list there. *)
Definition handleConfigSubmit (repositories : list RepositoryResponse)
    (c : Cells) : Cells * option ConfigData :=
  if negb (JS.truthy (geminiToken c))
  then (withForm (setFormError (Some "Gemini API Token is required.")) c, None)
  else (setIsConfigured true (withForm (setFormError None) c),
        Some (configOf c repositories)).

Definition handleRotateKey (c : Cells) : Cells :=
  c |> setGeminiToken "" |> setIsConfigured false.

End Rev2.

(** [App] passes [handleConfigure] as [onConfigure]. *)
Definition dispatchConfig (config : option ConfigData) (s : State) : State :=
  match config with
  | Some data => handleConfigure data s
  | None => s
  end.

(** The listed repository a configuration entry was built from. *)
Definition listedOf (r : ConfigRepository) : RepositoryResponse :=
  mkRepositoryResponse (cr_id r) (r_name (cr_repository r))
    (r_url (cr_repository r)) (r_host (cr_repository r))
    (r_owner (cr_repository r)) (r_repo (cr_repository r))
    (r_branch (cr_repository r)).

End ConfigForm.

(** ** Observations on what the forms hand to [App] *)

(** The repository a form call carries. *)
Definition repositoryOf (call : RepoCall) : Repository :=
  match call with
  | addRepository repo => repo
  | updateRepository _ repo => repo
  end.

(** The URL the form generates from host, owner and repo. *)
Definition generatedUrl (host owner repo : string) : string :=
  "https://" +:+ host +:+ "/" +:+ owner +:+ "/" +:+ repo.

(** An add call whose URL is the generated one; any other call. *)
Definition addHasGeneratedUrl (call : ConfigForm.PropCall) : Prop :=
  match call with
  | ConfigForm.callRepository (addRepository repo) =>
      r_url repo = generatedUrl (r_host repo) (r_owner repo) (r_repo repo)
  | _ => True
  end.

(** While no named repository is being edited, the URL cell is empty. *)
Definition urlBlankUnlessEditing (f : Form) : Prop :=
  JS.truthy_opt (editingRepoId f) = false -> repoUrl f = "".

(** * Properties *)

(** ** Truthiness *)

Lemma truthy_true_iff s : JS.truthy s = true <-> s <> "".
Proof. destruct s; simpl; split; congruence. Qed.

(** A truthy [string | null] cell holds a non-empty string. *)
Lemma truthy_opt_true_iff o :
  JS.truthy_opt o = true <-> exists s, o = Some s /\ s <> "".
Proof.
  destruct o as [s|]; simpl.
  - rewrite truthy_true_iff. split.
    + intros H. exists s. auto.
    + intros (s' & [= <-] & H). exact H.
  - split; [discriminate | intros (s & [=] & _)].
Qed.

(** ** General facts about runs *)

Lemma run_app s tr1 tr2 : run s (tr1 ++ tr2) = run (run s tr1) tr2.
Proof. unfold run. apply fold_left_app. Qed.

Lemma run_cons s a tr : run s (a :: tr) = run (step s a) tr.
Proof. reflexivity. Qed.

Lemma run_nil s : run s [] = s.
Proof. reflexivity. Qed.

Lemma run_single s a : run s [a] = step s a.
Proof. reflexivity. Qed.

(** ** Configuration errors *)

(** C3: a CONFIG_ERROR event with message [m] leaves the client
    unconfigured, sets the status text to "Configuration Error: " followed
    by [m], and changes no other cell of the session state. *)
Theorem CONFIG_ERROR_unconfigures (s : State) (m : string) :
  let s' := onMessage (CONFIG_ERROR m) s in
  isConfigured s' = false
  /\ systemMessage s' = Some ("Configuration Error: " +:+ m)
  /\ configData s' = configData s
  /\ chatMessages s' = chatMessages s
  /\ fileTree s' = fileTree s
  /\ isFileTreeLoading s' = isFileTreeLoading s
  /\ fileTreeError s' = fileTreeError s
  /\ repositories s' = repositories s
  /\ selectedRepositoryId s' = selectedRepositoryId s
  /\ selectedRepository s' = selectedRepository s
  /\ sent s' = sent s.
Proof. simpl. repeat split. Qed.

(** The scenario of the design document: a submission answered by
    [CONFIG_ERROR "no repos"]. *)
Example CONFIG_ERROR_scenario :
  let s := run initialState
             [Configure (mkConfigData "abc" []);
              Receive (CONFIG_ERROR "no repos")] in
  isConfigured s = false
  /\ systemMessage s = Some "Configuration Error: no repos".
Proof. split; reflexivity. Qed.

(** ** The repository registry *)

Lemma REPOSITORIES_LIST_registry s l :
  repositories (onMessage (REPOSITORIES_LIST l) s) = l.
Proof.
  simpl. destruct l as [|first rest]; [reflexivity|].
  destruct (negb _); reflexivity.
Qed.

(** The selection cell after a list event, in closed form. *)
Lemma REPOSITORIES_LIST_selection s l :
  selectedRepositoryId (onMessage (REPOSITORIES_LIST l) s)
  = match l with
    | first :: _ =>
        if JS.truthy_opt (selectedRepositoryId s) then selectedRepositoryId s
        else Some (rr_id first)
    | [] => selectedRepositoryId s
    end.
Proof.
  simpl. destruct l as [|first rest]; [reflexivity|].
  destruct (JS.truthy_opt _); reflexivity.
Qed.

(** After any non-empty sequence of list events the registry is the last
    payload: nothing of the earlier lists survives. *)
Lemma REPOSITORIES_LIST_sequence s ls l :
  repositories (run s (map listEvent (ls ++ [l]))) = l.
Proof.
  rewrite map_app, run_app. simpl. apply REPOSITORIES_LIST_registry.
Qed.

(** C4: whatever the registry held before, after a REPOSITORIES_LIST event
    it is exactly the list carried by the event; and when no repository was
    selected and the list is not empty, its first entry becomes the
    selected one. *)
Theorem REPOSITORIES_LIST_full_replace (s : State) (l : list RepositoryResponse) :
  let s' := onMessage (REPOSITORIES_LIST l) s in
  repositories s' = l
  /\ (forall first rest,
        selectedRepositoryId s = None -> l = first :: rest ->
        selectedRepositoryId s' = Some (rr_id first)).
Proof.
  cbv zeta. split.
  - apply REPOSITORIES_LIST_registry.
  - intros first rest Hnone ->. rewrite REPOSITORIES_LIST_selection, Hnone.
    reflexivity.
Qed.

Example REPOSITORIES_LIST_first_sync :
  let s := run initialState [listEvent [repoR1]; listEvent [repoR2; repoR1]] in
  repositories s = [repoR2; repoR1] /\ selectedRepositoryId s = Some "r1".
Proof. split; reflexivity. Qed.

(** The code tests [!selectedRepositoryId]: an empty-string id counts as
    no selection too. *)
Example REPOSITORIES_LIST_empty_string_selection :
  selectedRepositoryId
    (onMessage (REPOSITORIES_LIST [repoR2])
       (setSelectedRepositoryId (Some "") initialState)) = Some "r2".
Proof. reflexivity. Qed.

(** C10: when a selection exists (the cell is truthy, which is how the code
    tests it), a REPOSITORIES_LIST event leaves the selection cell as it is,
    also when the selected id is not in the received list, so that the
    selected id then names no record of the new registry; the event changes
    the cell only when it held no selection and the list is not empty, and
    then to the first id of the list. *)
Theorem REPOSITORIES_LIST_keeps_selection
    (s : State) (l : list RepositoryResponse)
    (Hsel : JS.truthy_opt (selectedRepositoryId s) = true) :
  let s' := onMessage (REPOSITORIES_LIST l) s in
  selectedRepositoryId s' = selectedRepositoryId s
  /\ (forall sid, selectedRepositoryId s = Some sid -> sid ∉ map rr_id l ->
        selectedRepositoryId s' = Some sid
        /\ sid ∉ map rr_id (repositories s'))
  /\ (forall s0 l0,
        let s0' := onMessage (REPOSITORIES_LIST l0) s0 in
        selectedRepositoryId s0' <> selectedRepositoryId s0 ->
        JS.truthy_opt (selectedRepositoryId s0) = false
        /\ exists first rest,
             l0 = first :: rest
             /\ selectedRepositoryId s0' = Some (rr_id first)).
Proof.
  cbv zeta.
  assert (Hkeep : selectedRepositoryId (onMessage (REPOSITORIES_LIST l) s)
                  = selectedRepositoryId s).
  { rewrite REPOSITORIES_LIST_selection, Hsel. destruct l; reflexivity. }
  split; [exact Hkeep|]. split.
  - intros sid Hs Hnot. rewrite Hkeep, REPOSITORIES_LIST_registry. auto.
  - intros s0 l0. rewrite REPOSITORIES_LIST_selection.
    destruct l0 as [|first rest]; [congruence|].
    destruct (JS.truthy_opt (selectedRepositoryId s0)); [congruence|].
    intros _. split; [reflexivity|]. exists first, rest. auto.
Qed.

Lemma REPOSITORIES_LIST_keeps_selection_witness :
  let s := handleSelectRepository "r1" initialState in
  let s' := onMessage (REPOSITORIES_LIST [repoR2]) s in
  selectedRepositoryId s' = Some "r1"
  /\ "r1" ∉ map rr_id (repositories s').
Proof.
  cbv zeta.
  destruct (REPOSITORIES_LIST_keeps_selection
              (handleSelectRepository "r1" initialState) [repoR2] eq_refl)
    as (_ & Hdangling & _).
  apply (Hdangling "r1" eq_refl).
  simpl. intros Hin. apply list_elem_of_singleton in Hin. discriminate Hin.
Defined.

(** ** The file tree *)

Lemma inFlight_LOADING s : inFlight s -> fileTreeState s = LOADING.
Proof. intros [_ Hl]. unfold fileTreeState. rewrite Hl. reflexivity. Qed.

Lemma step_inFlight s a :
  isTreeResponse a = false -> inFlight s -> inFlight (step s a).
Proof.
  unfold inFlight. intros Ha [Ht Hl].
  destruct a as [m| | | | | | | |]; simpl; auto.
  - destruct m as [ | | | | | |l|action rid r| |]; simpl in *;
      try discriminate; auto.
    + destruct l; [auto|]. destruct (negb _); auto.
    + destruct (_ && _); [auto|].
      destruct (bool_decide _); [auto|]. destruct (_ =? _)%string; auto.
  - destruct (JS.truthy_opt _); auto.
Qed.

Lemma run_inFlight tr : forall s,
  forallb (fun a => negb (isTreeResponse a)) tr = true ->
  inFlight s -> inFlight (run s tr).
Proof.
  induction tr as [|a tr IH]; intros s Htr Hs; [exact Hs|].
  simpl in Htr. apply andb_prop in Htr as [Ha Htr].
  rewrite run_cons. apply IH; [exact Htr|].
  apply step_inFlight; [|exact Hs]. now apply negb_true_iff.
Qed.

(** C5: from every file-tree state, issuing FETCH_FILES at once drops the
    tree held so far and the previous error and raises the loading flag;
    and as long as neither FILE_TREE_DATA nor FILE_TREE_ERROR has been
    processed, whatever else happens, no tree is held and the state stays
    LOADING. *)
Theorem handleFetchFileTree_clears_stale_tree
    (s : State) (repository_id : string) (tr : list Action)
    (Hpending : forallb (fun a => negb (isTreeResponse a)) tr = true) :
  let s1 := handleFetchFileTree repository_id s in
  fileTree s1 = None
  /\ fileTreeError s1 = None
  /\ isFileTreeLoading s1 = true
  /\ fileTreeState s1 = LOADING
  /\ sent s1 = sent s ++ [FETCH_FILES repository_id]
  /\ fileTree (run s1 tr) = None
  /\ fileTreeState (run s1 tr) = LOADING.
Proof.
  cbv zeta.
  assert (Hfl : inFlight (run (handleFetchFileTree repository_id s) tr)).
  { apply run_inFlight; [exact Hpending|]. split; reflexivity. }
  repeat split; try reflexivity.
  - apply Hfl.
  - apply inFlight_LOADING, Hfl.
Qed.

Lemma handleFetchFileTree_clears_stale_tree_witness :
  let s := run initialState
             [FetchFileTree "r1"; Receive (FILE_TREE_DATA twoNodes None)] in
  let s1 := handleFetchFileTree "r1" s in
  let tr := [Receive (AGENT_TYPING true); SelectRepository "r2";
             Receive (REPOSITORIES_LIST [repoR1; repoR2])] in
  fileTree s = Some twoNodes
  /\ fileTree s1 = None
  /\ fileTreeState (run s1 tr) = LOADING.
Proof.
  cbv zeta. split; [reflexivity|].
  destruct (handleFetchFileTree_clears_stale_tree
              (run initialState
                 [FetchFileTree "r1"; Receive (FILE_TREE_DATA twoNodes None)])
              "r1"
              [Receive (AGENT_TYPING true); SelectRepository "r2";
               Receive (REPOSITORIES_LIST [repoR1; repoR2])]
              eq_refl)
    as (H1 & _ & _ & _ & _ & _ & H7).
  split; [exact H1 | exact H7].
Defined.

(** C1 (as stated, refuted): in the scenario of the design document the
    tree loaded for "r1" is still held, and the state is still LOADED, after
    "r2" has been selected. *)
Lemma handleSelectRepository_keeps_loaded_tree :
  let s := run initialState
             [SelectRepository "r1"; FetchFileTree "r1";
              Receive (FILE_TREE_DATA twoNodes None);
              SelectRepository "r2"] in
  selectedRepositoryId s = Some "r2"
  /\ fileTree s = Some twoNodes
  /\ fileTreeState s = LOADED twoNodes
  /\ fileTreeState s <> IDLE.
Proof. cbv zeta. repeat split. discriminate. Qed.

(** The same for a pending fetch and for a failed one. *)
Example handleSelectRepository_keeps_loading_and_error :
  fileTreeState
    (run initialState [FetchFileTree "r1"; SelectRepository "r2"]) = LOADING
  /\ fileTreeState
       (run initialState
          [FetchFileTree "r1"; Receive (FILE_TREE_ERROR "boom");
           SelectRepository "r2"]) = ERROR "boom".
Proof. split; reflexivity. Qed.

(** C1 (amended): selecting a repository records the new id as the
    selection, sends SELECT_REPOSITORY and sets the status text; the tree,
    the loading flag and the error are exactly what they were, so the
    file-tree state of the previous selection carries over. *)
Theorem handleSelectRepository_frame (id : string) (s : State) :
  let s' := handleSelectRepository id s in
  selectedRepositoryId s' = Some id
  /\ sent s' = sent s ++ [SELECT_REPOSITORY id]
  /\ systemMessage s' = Some "Selecting repository..."
  /\ fileTree s' = fileTree s
  /\ isFileTreeLoading s' = isFileTreeLoading s
  /\ fileTreeError s' = fileTreeError s
  /\ fileTreeState s' = fileTreeState s.
Proof. cbv zeta. repeat split. Qed.

(** ** Session reset *)

(** C7 (the code at the failing input): the reset callback sets the tree
    to null but leaves the loading flag and the error, which every other
    writer of the three cells sets together with the tree.  A reset that
    follows a failed fetch keeps the error, so the file-tree state is still
    ERROR afterwards; one that follows an unanswered fetch keeps the
    loading flag.  In a whole session (list, fetch, error, configure,
    success, reset, list again) the error of the old session is rendered,
    and the banner is red, in the new one. *)
Lemma onResetConfiguration_keeps_file_tree_error :
  let s := run initialState
             [FetchFileTree "r1"; Receive (FILE_TREE_ERROR "boom");
              Receive CONFIG_SUCCESS; ResetConfiguration] in
  let s2 := run initialState
              [Receive CONFIG_SUCCESS; FetchFileTree "r1";
               ResetConfiguration] in
  let s3 := run initialState
              [listEvent [repoR1]; FetchFileTree "r1";
               Receive (FILE_TREE_ERROR "boom");
               Configure (mkConfigData "key" []);
               Receive CONFIG_SUCCESS; ResetConfiguration;
               listEvent [repoR1]] in
  fileTreeError s = Some "boom"
  /\ fileTreeState s = ERROR "boom"
  /\ fileTreeState s <> IDLE
  /\ isFileTreeLoading s2 = true
  /\ fileTreeState s2 = LOADING
  /\ chatMessages s3 = [] /\ fileTree s3 = None /\ isConfigured s3 = false
  /\ fileTreeError s3 = Some "boom"
  /\ FileTreePanel.errorBoxRendered AppView.OPEN s3 = true
  /\ AppView.bannerRed AppView.OPEN s3 = true.
Proof. cbv zeta. repeat split. discriminate. Qed.

(** What the reset does clear: a session reset empties the chat
    transcript, drops the held file tree, and unconfigures the client
    (configuration data and selection included); the repository registry
    is not touched by the reset, and the next REPOSITORIES_LIST event sets
    it to its payload, exactly as it would have without the reset. *)
Theorem onResetConfiguration_clears (s : State) (l : list RepositoryResponse) :
  let s' := onResetConfiguration s in
  chatMessages s' = []
  /\ fileTree s' = None
  /\ isConfigured s' = false
  /\ configData s' = None
  /\ selectedRepositoryId s' = None
  /\ selectedRepository s' = None
  /\ systemMessage s' = Some "Configuration reset. Please re-configure."
  /\ repositories s' = repositories s
  /\ sent s' = sent s
  /\ repositories (onMessage (REPOSITORIES_LIST l) s') = l
  /\ repositories (onMessage (REPOSITORIES_LIST l) s')
     = repositories (onMessage (REPOSITORIES_LIST l) s).
Proof.
  cbv zeta. repeat split.
  - apply REPOSITORIES_LIST_registry.
  - now rewrite !REPOSITORIES_LIST_registry.
Qed.

Example onResetConfiguration_scenario :
  let s := run initialState
             [listEvent [repoR1; repoR2]; Receive CONFIG_SUCCESS;
              SendChatMessage "hi" 1700000000000 1700000000000;
              ResetConfiguration] in
  isConfigured s = false /\ chatMessages s = []
  /\ repositories s = [repoR1; repoR2]
  /\ repositories (step s (listEvent [repoR1; repoR2])) = [repoR1; repoR2].
Proof. repeat split. Qed.

(** ** The chat transcript *)

(** How each action changes the transcript. *)
Lemma step_chatMessages s a :
  chatMessages (step s a)
  = match a with
    | SendChatMessage text now_id now_ts =>
        chatMessages s ++ [userMessage text now_id now_ts]
    | Receive (NEW_CHAT_MESSAGE m) => chatMessages s ++ [m]
    | ResetConfiguration => []
    | _ => chatMessages s
    end.
Proof.
  destruct a as [m| | | | | | | |]; simpl; try reflexivity.
  - destruct m as [ | |tree r| | | |l|action rid r| |]; simpl; try reflexivity.
    + destruct r; reflexivity.
    + destruct l; [reflexivity|]. destruct (negb _); reflexivity.
    + destruct (_ && _); [reflexivity|].
      destruct (bool_decide _); [reflexivity|].
      destruct (_ =? _)%string; reflexivity.
  - destruct (JS.truthy_opt _); reflexivity.
Qed.

Lemma step_typing s a : isTyping a = true -> step s a = s.
Proof.
  destruct a as [m| | | | | | | |]; try discriminate.
  destruct m; try discriminate. reflexivity.
Qed.

Lemma run_typing ts : forall s, forallb isTyping ts = true -> run s ts = s.
Proof.
  induction ts as [|a ts IH]; intros s Hts; [reflexivity|].
  simpl in Hts. apply andb_prop in Hts as [Ha Hts].
  rewrite run_cons, (step_typing _ _ Ha). apply IH, Hts.
Qed.

(** C6: sending one user message appends it to the transcript at once
    (an entry of sender user with the text sent, the decimal text of the
    first clock reading as id and the second reading as timestamp), and
    the NEW_CHAT_MESSAGE processed later is appended after it, verbatim,
    so the transcript grows from [base] to [base + 2] entries with the
    user message first; AGENT_TYPING events before, between and after the
    two change nothing. *)
Theorem chat_send_then_receive
    (s : State) (text : string) (now_id now_ts : Z) (m : ChatMessage)
    (ts1 ts2 ts3 : list Action)
    (H1 : forallb isTyping ts1 = true)
    (H2 : forallb isTyping ts2 = true)
    (H3 : forallb isTyping ts3 = true) :
  let send := SendChatMessage text now_id now_ts in
  let afterSend := run s (ts1 ++ [send]) in
  let final := run s (ts1 ++ [send] ++ ts2 ++ [Receive (NEW_CHAT_MESSAGE m)] ++ ts3) in
  let sentMessage := mkChatMessage (pretty now_id) user text now_ts in
  chatMessages afterSend = chatMessages s ++ [sentMessage]
  /\ chatMessages final = chatMessages s ++ [sentMessage; m]
  /\ length (chatMessages final) = length (chatMessages s) + 2
  /\ run s ts1 = s.
Proof.
  cbv zeta.
  assert (Hfinal :
    chatMessages
      (run s (ts1 ++ [SendChatMessage text now_id now_ts] ++ ts2
              ++ [Receive (NEW_CHAT_MESSAGE m)] ++ ts3))
    = chatMessages s ++ [mkChatMessage (pretty now_id) user text now_ts; m]).
  { rewrite run_app, (run_typing _ _ H1), run_app, run_app, run_app.
    rewrite (run_typing ts3 _ H3), run_single, step_chatMessages.
    rewrite (run_typing ts2 _ H2), run_single, step_chatMessages.
    now rewrite <- app_assoc. }
  split; [|split; [exact Hfinal|split]].
  - rewrite run_app, (run_typing _ _ H1), run_single.
    apply step_chatMessages.
  - rewrite Hfinal, length_app. reflexivity.
  - apply run_typing, H1.
Qed.

Lemma chat_send_then_receive_witness :
  let tr := [Receive (AGENT_TYPING false)]
            ++ [SendChatMessage "hi" 1700000000000 1700000000000]
            ++ [Receive (AGENT_TYPING true); Receive (AGENT_TYPING true)]
            ++ [Receive (NEW_CHAT_MESSAGE agentReply)]
            ++ [Receive (AGENT_TYPING false)] in
  chatMessages (run initialState tr)
  = [mkChatMessage "1700000000000" user "hi" 1700000000000; agentReply].
Proof.
  cbv zeta.
  exact (proj1 (proj2 (chat_send_then_receive initialState "hi"
                         1700000000000 1700000000000 agentReply
                         [Receive (AGENT_TYPING false)]
                         [Receive (AGENT_TYPING true); Receive (AGENT_TYPING true)]
                         [Receive (AGENT_TYPING false)]
                         eq_refl eq_refl eq_refl))).
Defined.

Example userMessage_id : cm_id (userMessage "hi" 1700000000000 1700000000001)
                         = "1700000000000".
Proof. vm_compute. reflexivity. Qed.

(** *** Message ids *)

Lemma userMessage_id_inj text1 text2 n1 n2 t1 t2 :
  cm_id (userMessage text1 n1 t1) = cm_id (userMessage text2 n2 t2) -> n1 = n2.
Proof. simpl. apply (inj pretty). Qed.

Lemma step_transcript_ids s a rest :
  map cm_id (chatMessages (step s a)) ++ rest
  `sublist_of` map cm_id (chatMessages s) ++ omap incomingId [a] ++ rest.
Proof.
  rewrite step_chatMessages.
  destruct a as [m| | | | | | | |]; simpl;
    try reflexivity;
    try (rewrite map_app, <- app_assoc; reflexivity).
  - destruct m; simpl; try reflexivity.
    rewrite map_app, <- app_assoc; reflexivity.
  - apply sublist_inserts_l. reflexivity.
Qed.

(** The ids in the transcript are, in order, among those it started with
    followed by those the actions brought in. *)
Lemma transcript_ids_sublist tr : forall s,
  map cm_id (chatMessages (run s tr))
  `sublist_of` map cm_id (chatMessages s) ++ omap incomingId tr.
Proof.
  induction tr as [|a tr IH]; intros s.
  - simpl. rewrite app_nil_r. reflexivity.
  - rewrite run_cons. etrans; [apply IH|].
    etrans; [apply step_transcript_ids|].
    change (a :: tr) with ([a] ++ tr). rewrite omap_app. reflexivity.
Qed.

Lemma incomingId_origin (tr : list Action) (x : string) :
  x ∈ omap incomingId tr ->
  (exists n : Z, n ∈ omap sendReading tr /\ x = pretty n)
  \/ x ∈ omap serverId tr.
Proof.
  rewrite list_elem_of_omap. intros (a & Ha & Hx).
  destruct a as [m| text n t | | | | | | |]; try discriminate.
  - destruct m; try discriminate. injection Hx as <-.
    right. apply list_elem_of_omap. eexists. split; [exact Ha|reflexivity].
  - injection Hx as <-. left. exists n. split; [|reflexivity].
    apply list_elem_of_omap. eexists. split; [exact Ha|reflexivity].
Qed.

Lemma incomingIds_NoDup (tr : list Action) :
  NoDup (omap sendReading tr) ->
  NoDup (omap serverId tr) ->
  (forall (n : Z) (i : string), n ∈ omap sendReading tr -> i ∈ omap serverId tr -> i <> pretty n) ->
  NoDup (omap incomingId tr).
Proof.
  induction tr as [|a tr IH]; intros Hr Hs Hapart; [constructor|].
  destruct a as [m| text n t | | | | | | |]; simpl in *; try (apply IH; assumption).
  - destruct m; simpl in *; try (apply IH; assumption).
    apply NoDup_cons in Hs as [Hfresh Hs].
    apply NoDup_cons. split.
    + intros Hin. apply incomingId_origin in Hin as [(n & Hn & Heq)|Hin].
      * apply (Hapart n (cm_id payload) Hn); [left|exact Heq].
      * exact (Hfresh Hin).
    + apply IH; [assumption..|].
      intros n i Hn Hi. apply Hapart; [exact Hn|right; exact Hi].
  - apply NoDup_cons in Hr as [Hfresh Hr].
    apply NoDup_cons. split.
    + intros Hin. apply incomingId_origin in Hin as [(n' & Hn' & Heq)|Hin].
      * apply (inj pretty) in Heq. subst n'. exact (Hfresh Hn').
      * apply (Hapart n (pretty n)); [left|exact Hin|reflexivity].
    + apply IH; [assumption..|].
      intros n' i Hn' Hi. apply Hapart; [right; exact Hn'|exact Hi].
Qed.

(** C9 (as stated, refuted): two different user messages sent within the
    same millisecond carry the same id, and so do a user message and a
    server message whose id is the decimal text of the send time. *)
Lemma chat_ids_collide :
  let s := run initialState
             [SendChatMessage "first" 1700000000000 1700000000000;
              SendChatMessage "second" 1700000000000 1700000000000] in
  let s2 := run initialState
              [SendChatMessage "first" 1700000000000 1700000000000;
               Receive (NEW_CHAT_MESSAGE
                          (mkChatMessage "1700000000000" agent "reply" 5))] in
  (exists m1 m2, chatMessages s = [m1; m2]
                 /\ m1 <> m2 /\ cm_id m1 = cm_id m2)
  /\ ~ NoDup (map cm_id (chatMessages s))
  /\ (exists m1 m2, chatMessages s2 = [m1; m2]
                    /\ m1 <> m2 /\ cm_id m1 = cm_id m2).
Proof.
  cbv zeta. split; [|split].
  - eexists _, _. split; [reflexivity|]. split; [discriminate|reflexivity].
  - intros Hnd. apply NoDup_cons in Hnd as [Hnotin _].
    apply Hnotin. left.
  - eexists _, _. split; [reflexivity|]. split; [discriminate|].
    vm_compute. reflexivity.
Qed.

(** C9 (amended): the id of a user message is the decimal text of the clock
    reading taken when it is sent, so messages sent at different readings
    get different ids; in a session that starts from an empty transcript,
    the ids in the transcript are pairwise different whenever the send
    readings are pairwise different, the ids the server assigns are
    pairwise different, and no server id is the decimal text of a send
    reading. *)
Theorem chat_ids_unique_when_fresh
    (s : State) (tr : list Action)
    (Hempty : chatMessages s = [])
    (Hreadings : NoDup (omap sendReading tr))
    (Hserver : NoDup (omap serverId tr))
    (Hapart : forall (n : Z) (i : string),
                n ∈ omap sendReading tr -> i ∈ omap serverId tr ->
                i <> pretty n) :
  NoDup (map cm_id (chatMessages (run s tr)))
  /\ (forall text1 text2 n1 n2 t1 t2, n1 <> n2 ->
        cm_id (userMessage text1 n1 t1) <> cm_id (userMessage text2 n2 t2)).
Proof.
  split.
  - eapply sublist_NoDup; [|apply transcript_ids_sublist].
    rewrite Hempty. simpl. now apply incomingIds_NoDup.
  - intros text1 text2 n1 n2 t1 t2 Hne Heq.
    apply Hne. eapply userMessage_id_inj, Heq.
Qed.

Lemma chat_ids_unique_when_fresh_witness :
  NoDup (map cm_id (chatMessages
    (run initialState
       [SendChatMessage "first" 1700000000000 1700000000000;
        Receive (NEW_CHAT_MESSAGE agentReply);
        SendChatMessage "second" 1700000000001 1700000000001]))).
Proof.
  refine (proj1 (chat_ids_unique_when_fresh initialState
           [SendChatMessage "first" 1700000000000 1700000000000;
            Receive (NEW_CHAT_MESSAGE agentReply);
            SendChatMessage "second" 1700000000001 1700000000001]
           eq_refl _ _ _)).
  - simpl. apply NoDup_cons. split.
    + intros Hin. apply list_elem_of_singleton in Hin. discriminate Hin.
    + apply NoDup_singleton.
  - simpl. apply NoDup_singleton.
  - simpl. intros n i Hn Hi. apply list_elem_of_singleton in Hi. subst i.
    apply elem_of_cons in Hn as [->|Hn].
    + vm_compute. discriminate.
    + apply list_elem_of_singleton in Hn. subst n. vm_compute. discriminate.
Defined.

(** ** The repository form *)

Lemma handleRepoSubmit_blank_token f :
  repoToken f = "" ->
  snd (handleRepoSubmit f) = None /\ snd (Rev2.handleRepoSubmit f) = None.
Proof.
  intros Htok. unfold handleRepoSubmit, Rev2.handleRepoSubmit, missingRequired.
  rewrite Htok. simpl. rewrite orb_true_r. simpl. split; reflexivity.
Qed.

(** C2 (the code at the failing input): the Edit button loads a listed
    repository into the form with a blank token; submitting that form,
    name, owner and repo all filled in, is rejected with the form error by
    both revisions of the component, and nothing is sent.  The same holds
    for every repository loaded for editing. *)
Theorem handleRepoSubmit_update_blank_token_rejected :
  let f := loadRepositoryForEdit repoR1 initialForm in
  (repoName f = "one" /\ repoOwner f = "o" /\ repoName2 f = "one"
   /\ repoToken f = "" /\ editingRepoId f = Some "r1")
  /\ handleRepoSubmit f
     = (setFormError
          (Some "Repository name, token, owner, and name are required.") f,
        None)
  /\ Rev2.handleRepoSubmit f
     = (setFormError
          (Some "Repository name, token, owner, and repo are required.") f,
        None)
  /\ (forall s, snd (submitRepoForm handleRepoSubmit (f, s)) = s)
  /\ (forall s, snd (submitRepoForm Rev2.handleRepoSubmit (f, s)) = s)
  /\ (forall repo f0,
        snd (handleRepoSubmit (loadRepositoryForEdit repo f0)) = None
        /\ snd (Rev2.handleRepoSubmit (loadRepositoryForEdit repo f0)) = None).
Proof.
  cbv zeta. repeat split.
  - apply handleRepoSubmit_blank_token. reflexivity.
  - apply handleRepoSubmit_blank_token. reflexivity.
Qed.

(** With a token typed in, the same edit goes out as UPDATE_REPOSITORY, and
    a filled-in new repository as ADD_REPOSITORY. *)
Example handleRepoSubmit_update_with_token :
  let f := loadRepositoryForEdit repoR1 initialForm in
  let f := mkForm (formError f) (isAddingRepo f) (editingRepoId f) (repoName f)
             (repoUrl f) (repoHost f) (repoOwner f) (repoName2 f)
             (repoBranch f) "ghp_x" in
  sent (snd (submitRepoForm handleRepoSubmit (f, initialState)))
  = [UPDATE_REPOSITORY "r1"
       (mkRepository "one" "https://github.com/o/one" "github.com" "o" "one"
          "main" "ghp_x")].
Proof. reflexivity. Qed.

Example handleRepoSubmit_add :
  let f := mkForm None true None "two" "" "github.com" "o" "two" "" "ghp_y" in
  sent (snd (submitRepoForm Rev2.handleRepoSubmit (f, initialState)))
  = [ADD_REPOSITORY
       (mkRepository "two" "https://github.com/o/two" "github.com" "o" "two"
          "main" "ghp_y")].
Proof. reflexivity. Qed.

(** ** Reconnection *)


(** The options as configured: a ceiling of 10 reconnect attempts, a delay
    of 3000 ms between attempts, and a reconnect predicate that answers
    [true] for every close event, whoever initiated the close. *)
Lemma reconnect_options :
  reconnectAttempts options = 10
  /\ reconnectInterval options = 3000
  /\ (forall e : CloseEvent, shouldReconnect options e = true).
Proof. repeat split. Qed.




(** Twelve closes in a row, the first of them initiated by the client:
    ten retries, then none. *)
Example reconnect_twelve_closes :
  Reconnection.onCloses options
    (manualClose :: replicate 11 (mkCloseEvent 1006 "" false)) 0
  = (10, replicate 10 (Reconnection.Retry 3000)
         ++ replicate 2 Reconnection.StayClosed).
Proof. reflexivity. Qed.

(** * Further properties of the client *)

(** Case analysis on an action, down to the branch its code takes. *)
Ltac step_cases a :=
  destruct a as [m| | | | | | | |];
  [destruct m as [ | |tree [r|]| | | |[|first rest]|action rid r| |]|..];
  simpl in *;
  repeat match goal with
         | |- context [if ?b then _ else _] => destruct b eqn:?
         end;
  simpl in *.

(** ** What is transmitted *)

Lemma step_sent s a : sent (step s a) = sent s ++ option_list (commandOf a).
Proof. step_cases a; rewrite ?app_nil_r; reflexivity. Qed.

(** X1: over a whole session the transmitted commands are exactly, and in
    order, one command per handler call, carrying the handler's arguments;
    processing a server message or resetting transmits nothing. *)
Theorem run_sent (tr : list Action) (s : State) :
  sent (run s tr) = sent s ++ omap commandOf tr.
Proof.
  revert s. induction tr as [|a tr IH]; intros s.
  - simpl. now rewrite app_nil_r.
  - rewrite run_cons, IH, step_sent.
    change (a :: tr) with ([a] ++ tr). rewrite omap_app, <- app_assoc.
    reflexivity.
Qed.

(** ** The configuration flag *)

Lemma step_isConfigured s a :
  isConfigured (step s a)
  = match a with
    | Receive CONFIG_SUCCESS => true
    | Receive (CONFIG_ERROR _) | ResetConfiguration => false
    | _ => isConfigured s
    end.
Proof. step_cases a; reflexivity. Qed.

(** X2: an unconfigured client stays unconfigured along every run in which
    no CONFIG_SUCCESS is processed: submitting a configuration, or any
    other command or event, never sets the flag. *)
Theorem configured_only_by_CONFIG_SUCCESS
    (tr : list Action) (s : State)
    (Hun : isConfigured s = false)
    (Htr : forallb (fun a => negb (isConfigSuccess a)) tr = true) :
  isConfigured (run s tr) = false.
Proof.
  revert s Hun. induction tr as [|a tr IH]; intros s Hun; [exact Hun|].
  simpl in Htr. apply andb_prop in Htr as [Ha Htr].
  rewrite run_cons. apply IH; [exact Htr|].
  rewrite step_isConfigured.
  destruct a as [m| | | | | | | |]; try exact Hun; try reflexivity.
  destruct m; try exact Hun; try reflexivity. discriminate Ha.
Qed.

Lemma configured_only_by_CONFIG_SUCCESS_witness :
  isConfigured
    (run initialState
       [Configure (mkConfigData "abc" []); Receive (CONFIG_ERROR "no repos");
        Configure (mkConfigData "abc" []); Receive (AGENT_TYPING true)])
  = false.
Proof.
  exact (configured_only_by_CONFIG_SUCCESS
           [Configure (mkConfigData "abc" []); Receive (CONFIG_ERROR "no repos");
            Configure (mkConfigData "abc" []); Receive (AGENT_TYPING true)]
           initialState eq_refl eq_refl).
Defined.

(** ** The registry *)

Lemma step_repositories s a :
  isListEvent a = false -> repositories (step s a) = repositories s.
Proof. intros Ha. step_cases a; try reflexivity; discriminate Ha. Qed.

(** X3: the registry is written by REPOSITORIES_LIST alone: along a run
    without that event it stays what it was, whatever repository commands
    are issued and whatever REPOSITORY_ACTION_SUCCESS or
    REPOSITORY_ACTION_ERROR events arrive. *)
Theorem registry_only_by_REPOSITORIES_LIST
    (tr : list Action) (s : State)
    (Htr : forallb (fun a => negb (isListEvent a)) tr = true) :
  repositories (run s tr) = repositories s.
Proof.
  revert s. induction tr as [|a tr IH]; intros s; [reflexivity|].
  simpl in Htr. apply andb_prop in Htr as [Ha Htr].
  rewrite run_cons, (IH Htr). apply step_repositories.
  now apply negb_true_iff.
Qed.

Lemma registry_only_by_REPOSITORIES_LIST_witness :
  let s := run initialState [listEvent [repoR1; repoR2]] in
  let updated := mkRepository "uno" "" "github.com" "o" "one" "main" "ghp_x" in
  repositories
    (run s
       [DeleteRepository "r2";
        Receive (REPOSITORY_ACTION_SUCCESS "delete" (Some "r2") None);
        UpdateRepository "r1" updated;
        Receive (REPOSITORY_ACTION_SUCCESS "update" (Some "r1") (Some repoR1));
        Receive (REPOSITORY_ACTION_ERROR "failed")])
  = [repoR1; repoR2].
Proof.
  cbv zeta.
  exact (registry_only_by_REPOSITORIES_LIST
           [DeleteRepository "r2";
            Receive (REPOSITORY_ACTION_SUCCESS "delete" (Some "r2") None);
            UpdateRepository "r1"
              (mkRepository "uno" "" "github.com" "o" "one" "main" "ghp_x");
            Receive (REPOSITORY_ACTION_SUCCESS "update" (Some "r1") (Some repoR1));
            Receive (REPOSITORY_ACTION_ERROR "failed")]
           (run initialState [listEvent [repoR1; repoR2]]) eq_refl).
Defined.

(** ** Coherence of the file-tree cells *)

Lemma step_fileTreeCoherent s a :
  fileTreeCoherent s -> fileTreeCoherent (step s a).
Proof.
  unfold fileTreeCoherent. intros [Hload Htree].
  step_cases a; (split; [intros Hl | intros Ht]);
    try (apply Hload; exact Hl); try (apply Htree; exact Ht);
    try discriminate; try reflexivity;
    try (destruct Ht as [? [=]]);
    try (split; reflexivity).
  split; [reflexivity | apply Hload, Hl].
Qed.

Lemma run_fileTreeCoherent tr : forall s,
  fileTreeCoherent s -> fileTreeCoherent (run s tr).
Proof.
  induction tr as [|a tr IH]; intros s Hs; [exact Hs|].
  rewrite run_cons. apply IH, step_fileTreeCoherent, Hs.
Qed.

(** X4: in every state a session can reach from the initial one, the
    file-tree cells are coherent (no tree and no error while loading, no
    error beside a tree), so the panel shows at most one of its three
    boxes: the spinner, the error, or the tree. *)
Theorem file_tree_boxes_exclusive (tr : list Action) :
  let s := run initialState tr in
  fileTreeCoherent s
  /\ FileTreePanel.loadingBoxShown s && FileTreePanel.errorBoxShown s = false
  /\ FileTreePanel.loadingBoxShown s && FileTreePanel.treeBoxShown s = false
  /\ FileTreePanel.errorBoxShown s && FileTreePanel.treeBoxShown s = false.
Proof.
  cbv zeta.
  assert (Hc : fileTreeCoherent (run initialState tr)).
  { apply run_fileTreeCoherent. split; [discriminate|reflexivity]. }
  split; [exact Hc|].
  unfold FileTreePanel.loadingBoxShown, FileTreePanel.errorBoxShown,
    FileTreePanel.treeBoxShown.
  destruct Hc as [Hload _].
  destruct (isFileTreeLoading (run initialState tr)) eqn:Hl.
  - destruct (Hload eq_refl) as [_ ->]. simpl.
    destruct (bool_decide _); repeat split.
  - destruct (JS.truthy_opt _), (bool_decide _); repeat split.
Qed.

(** ** The selection *)

Lemma step_selectedRepositoryId s a :
  writesSelection a = false ->
  selectedRepositoryId (step s a) = selectedRepositoryId s.
Proof. intros Ha. step_cases a; try reflexivity; congruence. Qed.

(** X5: the selection is written only by a select command, a reset, a
    REPOSITORIES_LIST event and a REPOSITORY_ACTION_SUCCESS event for
    "select" with an id.  Along a run with none of them it stays what it
    was: a REPOSITORY_ACTION_ERROR does not take back a selection made
    ahead of the server, and a FILE_TREE_DATA event naming another
    repository does not move it. *)
Theorem selection_frame (tr : list Action) (s : State)
    (Htr : forallb (fun a => negb (writesSelection a)) tr = true) :
  selectedRepositoryId (run s tr) = selectedRepositoryId s.
Proof.
  revert s. induction tr as [|a tr IH]; intros s; [reflexivity|].
  simpl in Htr. apply andb_prop in Htr as [Ha Htr].
  rewrite run_cons, (IH Htr). apply step_selectedRepositoryId.
  now apply negb_true_iff.
Qed.

Lemma selection_frame_witness :
  selectedRepositoryId
    (run (handleSelectRepository "r1" initialState)
       [Receive (REPOSITORY_ACTION_ERROR "no such repository");
        FetchFileTree "r1";
        Receive (FILE_TREE_DATA twoNodes (Some repoR2));
        Receive (REPOSITORY_ACTION_SUCCESS "select" None (Some repoR2))])
  = Some "r1".
Proof.
  exact (selection_frame
           [Receive (REPOSITORY_ACTION_ERROR "no such repository");
            FetchFileTree "r1";
            Receive (FILE_TREE_DATA twoNodes (Some repoR2));
            Receive (REPOSITORY_ACTION_SUCCESS "select" None (Some repoR2))]
           (handleSelectRepository "r1" initialState) eq_refl).
Defined.

(** X6: confirmations carry no link to the command they answer.  When
    two repositories are selected one after the other and the
    confirmation of the first select arrives afterwards, the selection
    goes back to the first repository, while the commands sent ask for the
    second. *)
Theorem late_select_confirmation_wins
    (s : State) (a b : string) (r : option RepositoryResponse)
    (Ha : a <> "") :
  let s' := run s [SelectRepository a; SelectRepository b;
                   Receive (REPOSITORY_ACTION_SUCCESS "select" (Some a) r)] in
  selectedRepositoryId (run s [SelectRepository a; SelectRepository b]) = Some b
  /\ selectedRepositoryId s' = Some a
  /\ sent s' = sent s ++ [SELECT_REPOSITORY a; SELECT_REPOSITORY b].
Proof.
  cbv zeta. split; [reflexivity|].
  destruct a as [|c a']; [congruence|]. simpl. split; [reflexivity|].
  now rewrite <- app_assoc.
Qed.

Lemma late_select_confirmation_wins_witness :
  selectedRepositoryId
    (run initialState
       [SelectRepository "r1"; SelectRepository "r2";
        Receive (REPOSITORY_ACTION_SUCCESS "select" (Some "r1") None)])
  = Some "r1".
Proof.
  refine (proj1 (proj2 (late_select_confirmation_wins
                          initialState "r1" "r2" None _))).
  discriminate.
Defined.

(** ** The status banner *)

(** X7: the status banner is rendered exactly when the spinner screen is
    not (the connection is not CONNECTING, or the client is configured)
    and a system message is held or the connection is not OPEN; so it is
    hidden exactly when the connection is OPEN with no system message, or
    CONNECTING with the client unconfigured.  Whenever it is rendered its
    text is not empty, and a held system message is shown in place of the
    connection status. *)
Theorem banner_visibility (readyState : AppView.ReadyState) (s : State) :
  (AppView.bannerVisible readyState s = false
   <-> (readyState = AppView.OPEN /\ JS.truthy_opt (systemMessage s) = false)
       \/ (readyState = AppView.CONNECTING /\ isConfigured s = false))
  /\ (AppView.spinnerScreen readyState s = true ->
      AppView.bannerVisible readyState s = false)
  /\ (AppView.bannerVisible readyState s = true ->
      JS.truthy_opt (AppView.bannerText readyState s) = true)
  /\ (JS.truthy_opt (systemMessage s) = true ->
      AppView.bannerText readyState s = systemMessage s).
Proof.
  unfold AppView.bannerVisible, AppView.bannerCondition, AppView.bannerText,
    AppView.spinnerScreen.
  destruct (JS.truthy_opt (systemMessage s)) eqn:Hm;
    destruct (isConfigured s) eqn:Hc;
    destruct readyState; simpl; rewrite ?Hm;
    intuition (try discriminate; try congruence).
Qed.

(** X8: sending a chat message dismisses the system message: afterwards
    none is shown, so with an open connection the banner is gone, and
    otherwise it shows the connection status. *)
Theorem handleSendChatMessage_dismisses_status
    (text : string) (now_id now_ts : Z) (s : State)
    (readyState : AppView.ReadyState) :
  let s' := handleSendChatMessage text now_id now_ts s in
  JS.truthy_opt (systemMessage s') = false
  /\ AppView.bannerVisible AppView.OPEN s' = false
  /\ AppView.bannerText readyState s'
     = AppView.connectionStatusMessage readyState.
Proof.
  cbv zeta.
  assert (H : JS.truthy_opt
                (systemMessage (handleSendChatMessage text now_id now_ts s))
              = false).
  { unfold handleSendChatMessage.
    destruct (JS.truthy_opt (systemMessage s)) eqn:Hm; simpl; auto. }
  unfold AppView.bannerVisible, AppView.bannerCondition, AppView.bannerText.
  rewrite H. repeat split.
Qed.

(** ** The transcript between resets *)

(** X9: along a run without a reset the transcript only grows at its end:
    it is the transcript before, followed, in order, by one entry per
    message sent (sender user, the text sent, the decimal text of the first
    clock reading as id, the second reading as timestamp) and the payload
    of each NEW_CHAT_MESSAGE received. *)
Theorem transcript_append_only (tr : list Action) (s : State)
    (Htr : forallb (fun a => negb (isReset a)) tr = true) :
  chatMessages (run s tr) = chatMessages s ++ omap incomingMessage tr.
Proof.
  revert s. induction tr as [|a tr IH]; intros s.
  - simpl. now rewrite app_nil_r.
  - simpl in Htr. apply andb_prop in Htr as [Ha Htr].
    rewrite run_cons, (IH Htr), step_chatMessages.
    destruct a as [m| | | | | | | |]; try reflexivity;
      try (simpl; now rewrite <- app_assoc); try discriminate Ha.
    destruct m; try reflexivity. simpl. now rewrite <- app_assoc.
Qed.

Lemma transcript_append_only_witness :
  chatMessages
    (run initialState
       [SendChatMessage "hi" 1700000000000 1700000000000;
        Receive (CONFIG_ERROR "late"); SelectRepository "r1";
        Receive (NEW_CHAT_MESSAGE agentReply)])
  = [mkChatMessage "1700000000000" user "hi" 1700000000000; agentReply].
Proof.
  exact (transcript_append_only
           [SendChatMessage "hi" 1700000000000 1700000000000;
            Receive (CONFIG_ERROR "late"); SelectRepository "r1";
            Receive (NEW_CHAT_MESSAGE agentReply)]
           initialState eq_refl).
Defined.

(** ** Tree responses *)

(** X10: a tree response is applied whatever the selection is when it
    arrives.  If another repository is selected while a fetch is pending,
    the tree that then arrives for the first one is held as LOADED under
    the new selection, and no fetch was sent for the new one.  With a
    non-empty new id, the client unconfigured and the connection not
    CONNECTING, the box holding that tree is rendered; with an empty new
    id the panel, and so the box, is not. *)
Theorem stale_tree_response_applied
    (s : State) (r1 r2 : string) (tree : list FileNode)
    (repository : option RepositoryResponse)
    (readyState : AppView.ReadyState) :
  let s' := run s [FetchFileTree r1; SelectRepository r2;
                   Receive (FILE_TREE_DATA tree repository)] in
  selectedRepositoryId s' = Some r2
  /\ fileTree s' = Some tree
  /\ fileTreeState s' = LOADED tree
  /\ sent s' = sent s ++ [FETCH_FILES r1; SELECT_REPOSITORY r2]
  /\ isConfigured s' = isConfigured s
  /\ (r2 <> "" -> isConfigured s = false ->
      AppView.isCONNECTING readyState = false ->
      FileTreePanel.treeBoxRendered readyState s' = true)
  /\ (r2 = "" -> FileTreePanel.treeBoxRendered readyState s' = false).
Proof.
  cbv zeta.
  unfold FileTreePanel.treeBoxRendered, FileTreePanel.screenShown,
    FileTreePanel.panelShown, FileTreePanel.treeBoxShown, AppView.spinnerScreen.
  destruct repository; simpl; rewrite <- app_assoc;
    (repeat split;
     [ intros Hr2 Hun Hrs; apply truthy_true_iff in Hr2;
       rewrite Hun, Hrs, Hr2; reflexivity
     | intros ->; simpl; now rewrite andb_false_r ]).
Qed.

Lemma stale_tree_response_applied_witness :
  FileTreePanel.treeBoxRendered AppView.OPEN
    (run (run initialState [listEvent [repoR1; repoR2]])
       [FetchFileTree "r1"; SelectRepository "r2";
        Receive (FILE_TREE_DATA twoNodes (Some repoR1))])
  = true.
Proof.
  refine (proj1 (proj2 (proj2 (proj2 (proj2 (proj2
            (stale_tree_response_applied
               (run initialState [listEvent [repoR1; repoR2]])
               "r1" "r2" twoNodes (Some repoR1) AppView.OPEN))))))
            _ eq_refl eq_refl).
  discriminate.
Defined.

(** ** The chat gate of the second revision *)

Lemma step_configData s a :
  writesConfigData a = false -> configData (step s a) = configData s.
Proof. intros Ha. step_cases a; try reflexivity; discriminate Ha. Qed.

Lemma run_configData tr : forall s,
  forallb (fun a => negb (writesConfigData a)) tr = true ->
  configData (run s tr) = configData s.
Proof.
  induction tr as [|a tr IH]; intros s Htr; [reflexivity|].
  simpl in Htr. apply andb_prop in Htr as [Ha Htr].
  rewrite run_cons, (IH _ Htr). apply step_configData.
  now apply negb_true_iff.
Qed.

(** X11: in the second revision the chat input is enabled by the key held
    locally, not by the server's answer: once a configuration with a
    non-empty key has been submitted, chat is enabled on an open connection
    and stays so until the next submission or reset, whatever the server
    replies, CONFIG_ERROR included. *)
Theorem canChat_after_configure
    (data : ConfigData) (s : State) (tr : list Action)
    (Hkey : JS.truthy (geminiToken data) = true)
    (Htr : forallb (fun a => negb (writesConfigData a)) tr = true) :
  let s' := run (handleConfigure data s) tr in
  AppView.Rev2.canChat s' = true
  /\ AppView.Rev2.isSendingMessage AppView.OPEN s' = false.
Proof.
  cbv zeta. unfold AppView.Rev2.isSendingMessage, AppView.Rev2.canChat.
  rewrite (run_configData _ _ Htr). simpl. rewrite Hkey. split; reflexivity.
Qed.

Lemma canChat_after_configure_witness :
  let s := run initialState
             [Configure (mkConfigData "key" []);
              Receive (CONFIG_ERROR "invalid key")] in
  isConfigured s = false /\ AppView.Rev2.canChat s = true.
Proof.
  cbv zeta. split; [reflexivity|].
  exact (proj1 (canChat_after_configure (mkConfigData "key" []) initialState
                  [Receive (CONFIG_ERROR "invalid key")] eq_refl eq_refl)).
Defined.

(** ** The Refresh Files button *)

(** X12: with a repository selected, a click on Refresh Files sends one
    FETCH_FILES for the selected id, and the button is then disabled until
    a FILE_TREE_DATA or FILE_TREE_ERROR event is processed, whatever else
    happens meanwhile. *)
Theorem refresh_disabled_while_pending
    (s : State) (isConnecting : bool) (tr : list Action)
    (Hsel : JS.truthy_opt (selectedRepositoryId s) = true)
    (Htr : forallb (fun a => negb (isTreeResponse a)) tr = true) :
  let s1 := FileTreePanel.onRefreshClick s in
  (exists id, selectedRepositoryId s = Some id
              /\ sent s1 = sent s ++ [FETCH_FILES id])
  /\ FileTreePanel.refreshDisabled isConnecting (run s1 tr) = true.
Proof.
  cbv zeta. unfold FileTreePanel.onRefreshClick.
  destruct (selectedRepositoryId s) as [id|] eqn:Hid; [|discriminate Hsel].
  simpl in Hsel. rewrite Hsel. split.
  - exists id. split; reflexivity.
  - unfold FileTreePanel.refreshDisabled.
    assert (Hfl : inFlight (run (handleFetchFileTree id s) tr)).
    { apply run_inFlight; [exact Htr|]. split; reflexivity. }
    destruct Hfl as [_ ->]. reflexivity.
Qed.

Lemma refresh_disabled_while_pending_witness :
  let s1 := FileTreePanel.onRefreshClick
              (handleSelectRepository "r1" initialState) in
  FileTreePanel.refreshDisabled false
    (run s1 [SelectRepository "r2"; Receive (AGENT_TYPING true)]) = true.
Proof.
  cbv zeta.
  exact (proj2 (refresh_disabled_while_pending
                  (handleSelectRepository "r1" initialState) false
                  [SelectRepository "r2"; Receive (AGENT_TYPING true)]
                  eq_refl eq_refl)).
Defined.

(** * Further properties of the forms *)

(** ** What an accepted repository submission carries *)

Lemma handleRepoSubmit_revisions_agree f :
  snd (Rev2.handleRepoSubmit f) = snd (handleRepoSubmit f).
Proof.
  unfold Rev2.handleRepoSubmit, handleRepoSubmit.
  destruct (missingRequired f); reflexivity.
Qed.

Lemma missingRequired_false f :
  missingRequired f = false ->
  repoName f <> "" /\ repoToken f <> "" /\ repoOwner f <> ""
  /\ repoName2 f <> "".
Proof.
  unfold missingRequired. intros H.
  apply orb_false_elim in H as [H H4]. apply orb_false_elim in H as [H H3].
  apply orb_false_elim in H as [H1 H2].
  apply negb_false_iff in H1, H2, H3, H4.
  repeat split; now apply truthy_true_iff.
Qed.

Lemma missingRequired_filled f :
  repoName f <> "" -> repoToken f <> "" -> repoOwner f <> "" ->
  repoName2 f <> "" -> missingRequired f = false.
Proof.
  intros H1 H2 H3 H4. unfold missingRequired.
  apply truthy_true_iff in H1, H2, H3, H4. now rewrite H1, H2, H3, H4.
Qed.

Lemma or_else_nonempty a b : b <> "" -> JS.or_else a b <> "".
Proof.
  intros Hb. unfold JS.or_else. destruct (JS.truthy a) eqn:Ha; [|exact Hb].
  now apply truthy_true_iff.
Qed.

(** X13: whenever the repository form, in either revision, calls
    [addRepository] or [updateRepository], the repository it hands over has
    a non-empty name, token, owner, repo, URL and branch, and an update is
    addressed to a non-empty id, the one being edited. *)
Theorem handleRepoSubmit_transmits_complete
    (f : Form) (call : RepoCall)
    (Hcall : snd (handleRepoSubmit f) = Some call) :
  let repo := repositoryOf call in
  snd (Rev2.handleRepoSubmit f) = Some call
  /\ r_name repo <> "" /\ r_token repo <> "" /\ r_owner repo <> ""
  /\ r_repo repo <> "" /\ r_url repo <> "" /\ r_branch repo <> ""
  /\ (forall id r, call = updateRepository id r ->
        id <> "" /\ editingRepoId f = Some id).
Proof.
  cbv zeta. rewrite handleRepoSubmit_revisions_agree.
  split; [exact Hcall|].
  unfold handleRepoSubmit in Hcall.
  destruct (missingRequired f) eqn:Hreq; [discriminate Hcall|].
  simpl in Hcall. injection Hcall as <-.
  apply missingRequired_false in Hreq as (H1 & H2 & H3 & H4).
  assert (Hrepo : repositoryOf (callFor f (repositoryOfForm f))
                  = repositoryOfForm f).
  { unfold callFor. destruct (editingRepoId f) as [id|]; [|reflexivity].
    destruct (JS.truthy id); reflexivity. }
  rewrite Hrepo. simpl.
  repeat split; try assumption.
  - apply or_else_nonempty. discriminate.
  - apply or_else_nonempty. discriminate.
  - unfold callFor in H.
    destruct (editingRepoId f) as [id'|]; [|discriminate H].
    destruct (JS.truthy id') eqn:Hid; [|discriminate H].
    injection H as <- _. now apply truthy_true_iff.
  - unfold callFor in H.
    destruct (editingRepoId f) as [id'|]; [|discriminate H].
    destruct (JS.truthy id') eqn:Hid; [|discriminate H].
    injection H as <- _. reflexivity.
Qed.

Lemma handleRepoSubmit_transmits_complete_witness :
  let f := mkForm None true None "two" "" "github.com" "o" "two" "" "ghp_y" in
  r_url (repositoryOf (addRepository (repositoryOfForm f))) <> ""
  /\ r_branch (repositoryOf (addRepository (repositoryOfForm f))) <> "".
Proof.
  cbv zeta.
  destruct (handleRepoSubmit_transmits_complete
              (mkForm None true None "two" "" "github.com" "o" "two" ""
                 "ghp_y")
              (addRepository
                 (repositoryOfForm
                    (mkForm None true None "two" "" "github.com" "o" "two" ""
                       "ghp_y")))
              eq_refl)
    as (_ & _ & _ & _ & _ & Hurl & Hbranch & _).
  split; [exact Hurl | exact Hbranch].
Defined.

(** ** Editing a listed repository *)

(** X14: editing a listed repository and typing a token sends the listed
    record back: an update addressed to its id, with its name, host, owner
    and repo, its URL and branch (the generated URL and "main" where the
    listed ones are empty), and the typed token. *)
Theorem edit_round_trip
    (repo : RepositoryResponse) (token : string) (f0 : Form) (s : State)
    (Hid : rr_id repo <> "") (Hname : rr_name repo <> "")
    (Howner : rr_owner repo <> "") (Hrepo : rr_repo repo <> "")
    (Htoken : token <> "") :
  let f := ConfigForm.setRepoToken token (loadRepositoryForEdit repo f0) in
  let sentRepo :=
    mkRepository (rr_name repo)
      (JS.or_else (rr_url repo)
         (generatedUrl (rr_host repo) (rr_owner repo) (rr_repo repo)))
      (rr_host repo) (rr_owner repo) (rr_repo repo)
      (JS.or_else (rr_branch repo) "main") token in
  snd (handleRepoSubmit f) = Some (updateRepository (rr_id repo) sentRepo)
  /\ sent (snd (submitRepoForm handleRepoSubmit (f, s)))
     = sent s ++ [UPDATE_REPOSITORY (rr_id repo) sentRepo].
Proof.
  cbv zeta.
  assert (Hsub :
    handleRepoSubmit
      (ConfigForm.setRepoToken token (loadRepositoryForEdit repo f0))
    = (resetRepoForm
         (ConfigForm.setRepoToken token (loadRepositoryForEdit repo f0)),
       Some (updateRepository (rr_id repo)
               (mkRepository (rr_name repo)
                  (JS.or_else (rr_url repo)
                     (generatedUrl (rr_host repo) (rr_owner repo)
                        (rr_repo repo)))
                  (rr_host repo) (rr_owner repo) (rr_repo repo)
                  (JS.or_else (rr_branch repo) "main") token)))).
  { unfold handleRepoSubmit.
    rewrite missingRequired_filled by (simpl; assumption).
    f_equal. f_equal. unfold callFor. simpl.
    apply truthy_true_iff in Hid. rewrite Hid. reflexivity. }
  split.
  - rewrite Hsub. reflexivity.
  - unfold submitRepoForm. simpl fst. rewrite Hsub. reflexivity.
Qed.

Lemma edit_round_trip_witness :
  sent (snd (submitRepoForm handleRepoSubmit
               (ConfigForm.setRepoToken "ghp_x"
                  (loadRepositoryForEdit repoR1 initialForm),
                initialState)))
  = [UPDATE_REPOSITORY "r1"
       (mkRepository "one" "https://github.com/o/one" "github.com" "o" "one"
          "main" "ghp_x")].
Proof.
  refine (proj2 (edit_round_trip repoR1 "ghp_x" initialForm initialState
                   _ _ _ _ _)); discriminate.
Defined.

(** ** A rejected submission, corrected and sent again *)



(** ** Submitting the configuration *)

Lemma listedOf_toConfigRepository repo :
  ConfigForm.listedOf (ConfigForm.toConfigRepository repo) = repo.
Proof. destruct repo; reflexivity. Qed.

(** X16: a configuration the first revision hands to [App] has a non-empty
    key and at least one repository; its entries are the listed
    repositories, in order and field by field, each with an empty token;
    the form then holds no error and is marked configured; and [App]
    stores the configuration and sends it in one SUBMIT_CONFIG, without
    marking itself configured. *)
Theorem handleConfigSubmit_accepted
    (repositories : list RepositoryResponse) (c : ConfigForm.Cells)
    (config : ConfigData) (s : State)
    (Hacc : snd (ConfigForm.handleConfigSubmit repositories c) = Some config) :
  let c' := fst (ConfigForm.handleConfigSubmit repositories c) in
  let s' := ConfigForm.dispatchConfig (Some config) s in
  geminiToken config = ConfigForm.geminiToken c
  /\ geminiToken config <> ""
  /\ repositories <> []
  /\ map ConfigForm.listedOf (cd_repositories config) = repositories
  /\ Forall (fun r => r_token (cr_repository r) = "") (cd_repositories config)
  /\ formError (ConfigForm.repoForm c') = None
  /\ ConfigForm.isConfigured c' = true
  /\ sent s' = sent s ++ [SUBMIT_CONFIG config]
  /\ configData s' = Some config
  /\ isConfigured s' = isConfigured s.
Proof.
  cbv zeta. unfold ConfigForm.handleConfigSubmit in *.
  destruct (JS.truthy (ConfigForm.geminiToken c)) eqn:Hkey;
    [|discriminate Hacc].
  simpl in Hacc |- *.
  destruct repositories as [|repo rest]; [discriminate Hacc|].
  simpl in Hacc |- *. injection Hacc as <-. simpl.
  repeat split.
  - now apply truthy_true_iff.
  - discriminate.
  - rewrite listedOf_toConfigRepository. f_equal.
    rewrite map_map. erewrite map_ext; [apply map_id|].
    intros r. apply listedOf_toConfigRepository.
  - constructor; [reflexivity|].
    apply Forall_forall. intros r Hr. apply list_elem_of_In in Hr.
    apply in_map_iff in Hr as (r0 & <- & _). reflexivity.
Qed.

Lemma handleConfigSubmit_accepted_witness :
  let c := ConfigForm.setGeminiToken "key" ConfigForm.initialCells in
  map ConfigForm.listedOf
    (cd_repositories (ConfigForm.configOf c [repoR1; repoR2]))
  = [repoR1; repoR2].
Proof.
  cbv zeta.
  exact (proj1 (proj2 (proj2 (proj2
           (handleConfigSubmit_accepted [repoR1; repoR2]
              (ConfigForm.setGeminiToken "key" ConfigForm.initialCells)
              (ConfigForm.configOf
                 (ConfigForm.setGeminiToken "key" ConfigForm.initialCells)
                 [repoR1; repoR2])
              initialState eq_refl))))).
Defined.

(** X17: with a key typed and no repository listed, the first revision
    refuses to submit and asks for a repository, while the second one
    submits a configuration with an empty repository list. *)
Theorem empty_registry_submission
    (c : ConfigForm.Cells) (s : State)
    (Hkey : ConfigForm.geminiToken c <> "") :
  snd (ConfigForm.handleConfigSubmit [] c) = None
  /\ formError (ConfigForm.repoForm (fst (ConfigForm.handleConfigSubmit [] c)))
     = Some "Please add at least one repository."
  /\ ConfigForm.isConfigured (fst (ConfigForm.handleConfigSubmit [] c))
     = ConfigForm.isConfigured c
  /\ snd (ConfigForm.Rev2.handleConfigSubmit [] c)
     = Some (mkConfigData (ConfigForm.geminiToken c) [])
  /\ sent (ConfigForm.dispatchConfig
             (snd (ConfigForm.Rev2.handleConfigSubmit [] c)) s)
     = sent s ++ [SUBMIT_CONFIG (mkConfigData (ConfigForm.geminiToken c) [])].
Proof.
  apply truthy_true_iff in Hkey.
  unfold ConfigForm.handleConfigSubmit, ConfigForm.Rev2.handleConfigSubmit.
  rewrite Hkey. simpl. repeat split.
Qed.

Lemma empty_registry_submission_witness :
  snd (ConfigForm.Rev2.handleConfigSubmit []
         (ConfigForm.setGeminiToken "key" ConfigForm.initialCells))
  = Some (mkConfigData "key" []).
Proof.
  refine (proj1 (proj2 (proj2 (proj2
            (empty_registry_submission
               (ConfigForm.setGeminiToken "key" ConfigForm.initialCells)
               initialState _))))).
  discriminate.
Defined.

(** X18: in the second revision, rotating the key empties the key cell and
    unmarks the form, so a submission right after it is refused; after a
    new key is typed the submission goes out with the new key. *)
Theorem rotate_key_then_submit
    (repositories : list RepositoryResponse) (c : ConfigForm.Cells)
    (key : string) (Hkey : key <> "") :
  let rotated := ConfigForm.Rev2.handleRotateKey c in
  ConfigForm.isConfigured rotated = false
  /\ snd (ConfigForm.Rev2.handleConfigSubmit repositories rotated) = None
  /\ snd (ConfigForm.Rev2.handleConfigSubmit repositories
            (ConfigForm.setGeminiToken key rotated))
     = Some (mkConfigData key
               (map ConfigForm.toConfigRepository repositories)).
Proof.
  cbv zeta. apply truthy_true_iff in Hkey.
  unfold ConfigForm.Rev2.handleConfigSubmit. simpl. rewrite Hkey.
  repeat split.
Qed.

Lemma rotate_key_then_submit_witness :
  snd (ConfigForm.Rev2.handleConfigSubmit [repoR1]
         (ConfigForm.Rev2.handleRotateKey
            (ConfigForm.mkCells initialForm "old" true)))
  = None.
Proof.
  refine (proj1 (proj2 (rotate_key_then_submit [repoR1]
                          (ConfigForm.mkCells initialForm "old" true)
                          "new" _))).
  discriminate.
Defined.

(** ** Sequences of handler runs in the first revision of the form *)

Lemma handle_isConfigured c e :
  ConfigForm.isConfigured c = true ->
  ConfigForm.isConfigured (fst (ConfigForm.handle c e)) = true.
Proof.
  intros Hc. destruct e; simpl; try exact Hc.
  - destruct (handleRepoSubmit (ConfigForm.repoForm c)). exact Hc.
  - unfold ConfigForm.handleConfigSubmit.
    destruct (negb _); [exact Hc|]. destruct (_ =? _)%nat; [exact Hc|].
    reflexivity.
Qed.

Lemma handleAll_cons c e es :
  ConfigForm.handleAll c (e :: es)
  = (fst (ConfigForm.handleAll (fst (ConfigForm.handle c e)) es),
     option_list (snd (ConfigForm.handle c e))
     ++ snd (ConfigForm.handleAll (fst (ConfigForm.handle c e)) es)).
Proof.
  simpl. destruct (ConfigForm.handle c e) as [c1 call]. simpl.
  destruct (ConfigForm.handleAll c1 es). reflexivity.
Qed.

(** X19: nothing in the first revision of the form unmarks it: once a
    configuration has been accepted by the form, its own configured flag
    stays up through every later handler run, so the Apply button stays
    disabled for as long as the component is mounted, whatever is typed
    and whatever the repository list and the connection are. *)
Theorem local_configured_latch
    (es : list ConfigForm.Event) (c : ConfigForm.Cells)
    (Hc : ConfigForm.isConfigured c = true) :
  let c' := fst (ConfigForm.handleAll c es) in
  ConfigForm.isConfigured c' = true
  /\ (forall repositories isConnecting,
        ConfigForm.submitDisabled repositories isConnecting c' = true).
Proof.
  cbv zeta.
  assert (H : ConfigForm.isConfigured (fst (ConfigForm.handleAll c es)) = true).
  { revert c Hc. induction es as [|e es IH]; intros c Hc; [exact Hc|].
    rewrite handleAll_cons. simpl. apply IH, handle_isConfigured, Hc. }
  split; [exact H|]. intros repositories isConnecting.
  unfold ConfigForm.submitDisabled. rewrite H. now rewrite !orb_true_r.
Qed.

Lemma local_configured_latch_witness :
  let c := fst (ConfigForm.handleConfigSubmit [repoR1]
                  (ConfigForm.setGeminiToken "key" ConfigForm.initialCells)) in
  ConfigForm.submitDisabled [repoR1] false
    (fst (ConfigForm.handleAll c
            [ConfigForm.ChangeGeminiToken "other"; ConfigForm.ClickCancel;
             ConfigForm.SubmitConfig [repoR1]]))
  = true.
Proof.
  cbv zeta.
  exact (proj2 (local_configured_latch
                  [ConfigForm.ChangeGeminiToken "other"; ConfigForm.ClickCancel;
                   ConfigForm.SubmitConfig [repoR1]]
                  (fst (ConfigForm.handleConfigSubmit [repoR1]
                          (ConfigForm.setGeminiToken "key"
                             ConfigForm.initialCells)))
                  eq_refl) [repoR1] false).
Defined.

Lemma handle_urlBlank c e :
  ConfigForm.editsNamedRepository e = true ->
  urlBlankUnlessEditing (ConfigForm.repoForm c) ->
  urlBlankUnlessEditing (ConfigForm.repoForm (fst (ConfigForm.handle c e))).
Proof.
  unfold urlBlankUnlessEditing. intros He Hinv.
  destruct e; simpl in *; try exact Hinv; try (intros _; reflexivity).
  - intros Hed. rewrite He in Hed. discriminate Hed.
  - unfold handleRepoSubmit.
    destruct (missingRequired _); simpl; [exact Hinv|reflexivity].
  - unfold ConfigForm.handleConfigSubmit.
    destruct (negb _); [exact Hinv|]. destruct (_ =? _)%nat; exact Hinv.
Qed.

Lemma handle_call_generated c e call :
  urlBlankUnlessEditing (ConfigForm.repoForm c) ->
  snd (ConfigForm.handle c e) = Some call ->
  addHasGeneratedUrl call.
Proof.
  unfold urlBlankUnlessEditing. intros Hinv Hcall.
  destruct e as [| | | | | | | | | | |repos]; simpl in Hcall;
    try discriminate Hcall.
  - unfold handleRepoSubmit in Hcall.
    destruct (missingRequired _); simpl in Hcall; [discriminate Hcall|].
    injection Hcall as <-. unfold callFor.
    destruct (editingRepoId (ConfigForm.repoForm c)) as [id|] eqn:Hed.
    + destruct (JS.truthy id) eqn:Hid; simpl; [exact I|].
      rewrite Hinv by (simpl; exact Hid). reflexivity.
    + simpl. rewrite Hinv by reflexivity. reflexivity.
  - destruct (ConfigForm.handleConfigSubmit repos c) as [c' [cfg|]];
      simpl in Hcall; [|discriminate Hcall].
    injection Hcall as <-. exact I.
Qed.

Lemma handleAll_calls_generated es : forall c,
  forallb ConfigForm.editsNamedRepository es = true ->
  urlBlankUnlessEditing (ConfigForm.repoForm c) ->
  Forall addHasGeneratedUrl (snd (ConfigForm.handleAll c es)).
Proof.
  induction es as [|e es IH]; intros c Hes Hinv; [constructor|].
  simpl in Hes. apply andb_prop in Hes as [He Hes].
  rewrite handleAll_cons. simpl. apply Forall_app. split.
  - destruct (snd (ConfigForm.handle c e)) as [call|] eqn:Hcall;
      [|constructor].
    constructor; [|constructor]. eapply handle_call_generated; eassumption.
  - apply IH; [exact Hes|]. now apply handle_urlBlank.
Qed.

(** X20: in the first revision, which has no input for the URL, every
    [addRepository] call the form makes after any sequence of handler runs
    from its initial cells carries the URL generated from the host, owner
    and repo it carries (edited repositories having non-empty ids). *)
Theorem add_url_generated
    (es : list ConfigForm.Event)
    (Hes : forallb ConfigForm.editsNamedRepository es = true) :
  Forall addHasGeneratedUrl
    (snd (ConfigForm.handleAll ConfigForm.initialCells es)).
Proof.
  apply handleAll_calls_generated; [exact Hes|]. intros _. reflexivity.
Qed.

Lemma add_url_generated_witness :
  let es := [ConfigForm.ClickEdit repoR1; ConfigForm.ClickCancel;
             ConfigForm.ClickAddRepository; ConfigForm.ChangeRepoName "two";
             ConfigForm.ChangeRepoToken "ghp_y";
             ConfigForm.ChangeRepoHost "git.example.org";
             ConfigForm.ChangeRepoOwner "o"; ConfigForm.ChangeRepoName2 "two";
             ConfigForm.SubmitRepo] in
  snd (ConfigForm.handleAll ConfigForm.initialCells es)
  = [ConfigForm.callRepository
       (addRepository
          (mkRepository "two" "https://git.example.org/o/two"
             "git.example.org" "o" "two" "main" "ghp_y"))]
  /\ Forall addHasGeneratedUrl
       (snd (ConfigForm.handleAll ConfigForm.initialCells es)).
Proof.
  cbv zeta. split; [reflexivity|].
  exact (add_url_generated
           [ConfigForm.ClickEdit repoR1; ConfigForm.ClickCancel;
            ConfigForm.ClickAddRepository; ConfigForm.ChangeRepoName "two";
            ConfigForm.ChangeRepoToken "ghp_y";
            ConfigForm.ChangeRepoHost "git.example.org";
            ConfigForm.ChangeRepoOwner "o"; ConfigForm.ChangeRepoName2 "two";
            ConfigForm.SubmitRepo]
           eq_refl).
Defined.

(** X21: in the first revision, changing the owner while editing a listed
    repository does not change the URL: the update carries the new owner
    together with the URL the repository was listed with. *)
Theorem edit_keeps_listed_url
    (repo : RepositoryResponse) (owner token : string) (c : ConfigForm.Cells)
    (Hid : rr_id repo <> "") (Hname : rr_name repo <> "")
    (Hrepo : rr_repo repo <> "") (Hurl : rr_url repo <> "")
    (Howner : owner <> "") (Htoken : token <> "") :
  snd (ConfigForm.handleAll c
         [ConfigForm.ClickEdit repo; ConfigForm.ChangeRepoOwner owner;
          ConfigForm.ChangeRepoToken token; ConfigForm.SubmitRepo])
  = [ConfigForm.callRepository
       (updateRepository (rr_id repo)
          (mkRepository (rr_name repo) (rr_url repo) (rr_host repo) owner
             (rr_repo repo) (JS.or_else (rr_branch repo) "main") token))].
Proof.
  rewrite !handleAll_cons. simpl.
  unfold handleRepoSubmit.
  rewrite missingRequired_filled by (simpl; assumption).
  simpl. unfold callFor, repositoryOfForm, JS.or_else at 1. simpl.
  apply truthy_true_iff in Hid, Hurl. rewrite Hid, Hurl. reflexivity.
Qed.

Lemma edit_keeps_listed_url_witness :
  snd (ConfigForm.handleAll ConfigForm.initialCells
         [ConfigForm.ClickEdit repoR1; ConfigForm.ChangeRepoOwner "newowner";
          ConfigForm.ChangeRepoToken "ghp_x"; ConfigForm.SubmitRepo])
  = [ConfigForm.callRepository
       (updateRepository "r1"
          (mkRepository "one" "https://github.com/o/one" "github.com"
             "newowner" "one" "main" "ghp_x"))].
Proof.
  refine (edit_keeps_listed_url repoR1 "newowner" "ghp_x"
            ConfigForm.initialCells _ _ _ _ _ _); discriminate.
Defined.

(** * Further properties of the status text *)

Lemma step_systemMessage s a :
  keepsStatus a = true -> systemMessage (step s a) = systemMessage s.
Proof.
  intros Ha. destruct a as [m| | | | | | | |]; try discriminate Ha.
  destruct m as [ | |tree [r|]| | | |[|first rest]|action rid r| |];
    try discriminate Ha; simpl in *; try reflexivity.
  - destruct (negb _); reflexivity.
  - destruct (_ && _); [reflexivity|]. simpl in Ha.
    destruct (bool_decide _); [discriminate Ha|]. simpl in Ha.
    destruct (_ =? _)%string; [discriminate Ha|reflexivity].
Qed.

(** X22: the answers to a fetch and to a select do not touch the status
    text: FILE_TREE_DATA, FILE_TREE_ERROR, a select confirmation,
    REPOSITORIES_LIST, chat and typing events leave it as it is, so a
    progress text such as "Fetching file tree..." stays after the tree has
    arrived, until another command or event writes the status. *)
Theorem status_text_not_cleared_by_answers
    (tr : list Action) (s : State)
    (Htr : forallb keepsStatus tr = true) :
  systemMessage (run s tr) = systemMessage s.
Proof.
  revert s. induction tr as [|a tr IH]; intros s; [reflexivity|].
  simpl in Htr. apply andb_prop in Htr as [Ha Htr].
  rewrite run_cons, (IH Htr). apply step_systemMessage, Ha.
Qed.

Lemma status_text_not_cleared_by_answers_witness :
  systemMessage
    (run (handleFetchFileTree "r1" initialState)
       [Receive (FILE_TREE_DATA twoNodes (Some repoR1));
        Receive (REPOSITORY_ACTION_SUCCESS "select" (Some "r1") None);
        Receive (REPOSITORIES_LIST [repoR1])])
  = Some "Fetching file tree...".
Proof.
  exact (status_text_not_cleared_by_answers
           [Receive (FILE_TREE_DATA twoNodes (Some repoR1));
            Receive (REPOSITORY_ACTION_SUCCESS "select" (Some "r1") None);
            Receive (REPOSITORIES_LIST [repoR1])]
           (handleFetchFileTree "r1" initialState) eq_refl).
Defined.

(** X23: a REPOSITORY_ACTION_SUCCESS event that carries a repository is
    reported as an update unless its action is "add": also for "delete",
    for a select without id, and for any other action the status text
    becomes "Repository updated successfully"; registry and selection are
    not touched. *)
Theorem success_with_repository_reported_as_update
    (s : State) (action : string) (repository_id : option string)
    (repo : RepositoryResponse)
    (Hadd : action <> "add")
    (Hsel : String.eqb action "select" && JS.truthy_opt repository_id = false) :
  let s' := onMessage
              (REPOSITORY_ACTION_SUCCESS action repository_id (Some repo)) s in
  systemMessage s' = Some "Repository updated successfully"
  /\ repositories s' = repositories s
  /\ selectedRepositoryId s' = selectedRepositoryId s.
Proof.
  cbv zeta. simpl. rewrite Hsel.
  apply String.eqb_neq in Hadd. simpl. rewrite Hadd. repeat split.
Qed.

Lemma success_with_repository_reported_as_update_witness :
  systemMessage
    (onMessage (REPOSITORY_ACTION_SUCCESS "delete" (Some "r1") (Some repoR1))
       (handleDeleteRepository "r1" initialState))
  = Some "Repository updated successfully".
Proof.
  refine (proj1 (success_with_repository_reported_as_update
                   (handleDeleteRepository "r1" initialState) "delete"
                   (Some "r1") repoR1 _ eq_refl)).
  discriminate.
Defined.
